(** * Accelerator-info: the repository-analysis notebook, embedded in Rocq

    The notebook [Accelerator_Info.ipynb] fetches a GitHub repository,
    asks a completion service a fixed catalogue of questions about it and
    tabulates the answers.  This file embeds the notebook's own functions

      - [analyze_github_repository]      (single-repository orchestrator)
      - [format_analysis_results]        (verbose formatter)
      - [analyze_multiple_repositories]  (batch orchestrator)
      - the [answers_df] cell            (boolean normalisation)

    as executable Rocq definitions and proves the properties the
    specification states about them.

    Conventions.  Python values are the inductive type [pyval]; a [dict]
    is an insertion-ordered association list with string keys (what
    [json.loads] produces).  Code that can raise returns an [outcome];
    code that also prints runs in the monad [py], which threads the lines
    written to standard output.  The two helper classes the notebook
    imports ([GitHubRepoAnalyzer], [AzureOpenAIAnalyzer]), [json.dumps] and
    the CSV writer are collaborators outside the notebook: they are the
    fields of the record [World]. *)

From Stdlib Require Import String Ascii List ZArith Bool Lia DecimalString.
From ExtLib Require Import Structures.Monad.
Import ListNotations.
Import MonadNotation.
Local Open Scope string_scope.
Local Open Scope monad_scope.

Set Implicit Arguments.
Set Warnings "-register-all".

(** ** Python values *)

(** A float is carried by its [repr] (["3.5"], ["nan"]): the notebook
    never computes with one, it only prints and compares them. *)
Inductive pyval : Type :=
| PNone
| PBool (b : bool)
| PInt (z : Z)
| PFloat (r : string)
| PStr (s : string)
| PList (l : list pyval)
| PDict (d : list (string * pyval)).

Definition NaN : pyval := PFloat "nan".

(** [type(v).__name__] *)
Definition type_name (v : pyval) : string :=
  match v with
  | PNone => "NoneType"
  | PBool _ => "bool"
  | PInt _ => "int"
  | PFloat _ => "float"
  | PStr _ => "str"
  | PList _ => "list"
  | PDict _ => "dict"
  end.

(** [isinstance(v, dict)] *)
Definition isinstance_dict (v : pyval) : bool :=
  match v with PDict _ => true | _ => false end.

(** [bool(v)], the test of [if v:] *)
Definition truthy (v : pyval) : bool :=
  match v with
  | PNone => false
  | PBool b => b
  | PInt z => negb (Z.eqb z 0)
  | PFloat r => negb (String.eqb r "0.0" || String.eqb r "-0.0")
  | PStr s => negb (String.eqb s EmptyString)
  | PList l => match l with [] => false | _ => true end
  | PDict d => match d with [] => false | _ => true end
  end.

(** *** [str] and [repr] *)

Definition nl : string := String "010"%char EmptyString.

Definition hex_digit (n : nat) : ascii :=
  match n with
  | 0 => "0" | 1 => "1" | 2 => "2" | 3 => "3" | 4 => "4" | 5 => "5"
  | 6 => "6" | 7 => "7" | 8 => "8" | 9 => "9" | 10 => "a" | 11 => "b"
  | 12 => "c" | 13 => "d" | 14 => "e" | _ => "f"
  end%char.

Definition dquote : ascii := "034"%char.
Definition backslash : ascii := "092"%char.

Fixpoint contains_char (c : ascii) (s : string) : bool :=
  match s with
  | EmptyString => false
  | String a s' => Ascii.eqb a c || contains_char c s'
  end.

(** One character of [repr(s)] for the quote [q]; exact for ASCII.  A
    byte above 127 belongs to a UTF-8 encoded character and is copied, as
    Python does for the printable characters; the characters beyond ASCII
    that Python escapes (the non-printable ones, such as U+00A0) are
    outside this model, and statements about the [repr] of text are made
    for ASCII text. *)
Definition repr_char (q c : ascii) : string :=
  let n := nat_of_ascii c in
  if Ascii.eqb c q || Ascii.eqb c backslash
  then String backslash (String c EmptyString)
  else if Nat.eqb n 9 then "\t"
  else if Nat.eqb n 10 then "\n"
  else if Nat.eqb n 13 then "\r"
  else if Nat.ltb n 32 || Nat.eqb n 127
       then String backslash (String "x"%char
              (String (hex_digit (n / 16)) (String (hex_digit (n mod 16)) EmptyString)))
  else String c EmptyString.

Fixpoint repr_chars (q : ascii) (s : string) : string :=
  match s with
  | EmptyString => EmptyString
  | String c s' => repr_char q c ++ repr_chars q s'
  end.

(** [repr] of a [str]: single quotes, unless the text has a single quote
    and no double quote. *)
Definition repr_str (s : string) : string :=
  let q := if contains_char "'"%char s && negb (contains_char dquote s)
           then dquote else "'"%char in
  String q (repr_chars q s) ++ String q EmptyString.

Definition str_of_Z (z : Z) : string := NilZero.string_of_int (Z.to_int z).

Definition str_of_bool (b : bool) : string := if b then "True" else "False".

Definition join (sep : string) (l : list string) : string := String.concat sep l.

Fixpoint py_repr (v : pyval) : string :=
  match v with
  | PNone => "None"
  | PBool b => str_of_bool b
  | PInt z => str_of_Z z
  | PFloat r => r
  | PStr s => repr_str s
  | PList l => "[" ++ join ", " (map py_repr l) ++ "]"
  | PDict d =>
      "{" ++ join ", " (map (fun kv => repr_str (fst kv) ++ ": " ++ py_repr (snd kv)) d)
          ++ "}"
  end.

(** [str(v)], which is what an f-string field [{v}] renders. *)
Definition py_str (v : pyval) : string :=
  match v with
  | PStr s => s
  | _ => py_repr v
  end.

(** ** Exceptions and outcomes *)

Inductive exn_class : Type :=
| AttributeError
| TypeError
| IndexError
| KeyError
| OtherException (name : string)   (* any other subclass of [Exception] *)
| NonException (name : string).    (* [KeyboardInterrupt], [SystemExit], ... *)

Record exn : Type := mkExn { exn_class_of : exn_class; exn_msg : string }.

(** [isinstance(e, Exception)], the filter of [except Exception as e] *)
Definition is_Exception (e : exn) : bool :=
  match exn_class_of e with NonException _ => false | _ => true end.

Inductive outcome (A : Type) : Type :=
| Ok (a : A)
| Raise (e : exn).
Arguments Ok {A} a.
Arguments Raise {A} e.

#[export] Instance Monad_outcome : Monad outcome :=
  {| ret := fun A (a : A) => Ok a;
     bind := fun A B (c : outcome A) (k : A -> outcome B) =>
               match c with Ok a => k a | Raise e => Raise e end |}.

Definition raises {A} (c : outcome A) : bool :=
  match c with Ok _ => false | Raise _ => true end.

(** *** Programs that print *)

(** A computation takes the lines printed so far and returns its outcome
    with the lines printed by then; what was printed before a [raise]
    stays printed. *)
Definition py (A : Type) : Type := list string -> outcome A * list string.

#[export] Instance Monad_py : Monad py :=
  {| ret := fun A (a : A) out => (Ok a, out);
     bind := fun A B (c : py A) (k : A -> py B) out =>
               match c out with
               | (Ok a, out') => k a out'
               | (Raise e, out') => (Raise e, out')
               end |}.

Definition print (line : string) : py unit := fun out => (Ok tt, (out ++ [line])%list).

Definition lift {A} (c : outcome A) : py A := fun out => (c, out).

(** [try: body / except Exception as e: handler e] *)
Definition try_except {A} (body : py A) (handler : exn -> py A) : py A :=
  fun out =>
    match body out with
    | (Raise e, out') => if is_Exception e then handler e out' else (Raise e, out')
    | r => r
    end.

Definition run {A} (c : py A) : outcome A * list string := c [].

(** ** Dictionaries *)

Definition dict : Type := list (string * pyval).

Fixpoint dict_lookup (k : string) (d : dict) : option pyval :=
  match d with
  | [] => None
  | (k', v) :: d' => if String.eqb k k' then Some v else dict_lookup k d'
  end.

(** [d[k] = v]: an existing key keeps its place, a new one goes last. *)
Fixpoint dict_set (k : string) (v : pyval) (d : dict) : dict :=
  match d with
  | [] => [(k, v)]
  | (k', v') :: d' =>
      if String.eqb k k' then (k, v) :: d' else (k', v') :: dict_set k v d'
  end.

Definition dict_keys (d : dict) : list string := map fst d.

(** [x.get(k, default)]: only a dict has the attribute. *)
Definition py_get (x : pyval) (k : string) (default : pyval) : outcome pyval :=
  match x with
  | PDict d => Ok (match dict_lookup k d with Some v => v | None => default end)
  | _ => Raise (mkExn AttributeError
                  ("'" ++ type_name x ++ "' object has no attribute 'get'"))
  end.

(** ** The formatter *)

(** The question catalogue, in the order [format_analysis_results] reads
    it. *)
Definition question_keys : list string :=
  [ "rbac_enabled"; "azure_gov_ready"; "azure_secret_ready"; "chat_history";
    "azure_services_count"; "architecture_diagram_present";
    "differentiators_from_asksage"; "differentiators_from_niprgpt";
    "differentiators_from_camogpt"; "deployment_method"; "costs_estimate";
    "notes" ].

(** The column labels of a formatted row. *)
Definition formatted_columns : list string :=
  [ "Repository URL"; "RBAC Enabled?"; "Azure Gov Ready?"; "Azure Secret Ready";
    "Chat History?"; "# of Azure Services?"; "Arch Diagram";
    "Differentiators from AskSage"; "Differentiators from NIPRGPT";
    "Differentiators from CamoGPT"; "Deployment Method"; "Costs Estimate";
    "Notes" ].

(** [f"{results.get(key, {}).get('answer', 'Unknown')}
       ({results.get(key, {}).get('confidence_level', 'low')})"] *)
Definition confidence_cell (results : pyval) (key : string) : outcome pyval :=
  q1 <- py_get results key (PDict []) ;;
  answer <- py_get q1 "answer" (PStr "Unknown") ;;
  q2 <- py_get results key (PDict []) ;;
  confidence <- py_get q2 "confidence_level" (PStr "low") ;;
  ret (PStr (py_str answer ++ " (" ++ py_str confidence ++ ")")).

(** [results.get(key, {}).get('answer', default)] *)
Definition answer_cell (results : pyval) (key : string) (default : pyval)
  : outcome pyval :=
  q <- py_get results key (PDict []) ;;
  py_get q "answer" default.

Definition format_analysis_results (repo_url : string) (results : pyval)
  : outcome dict :=
  rbac <- confidence_cell results "rbac_enabled" ;;
  gov <- confidence_cell results "azure_gov_ready" ;;
  secret <- confidence_cell results "azure_secret_ready" ;;
  chat <- confidence_cell results "chat_history" ;;
  services <- confidence_cell results "azure_services_count" ;;
  arch <- confidence_cell results "architecture_diagram_present" ;;
  asksage <- answer_cell results "differentiators_from_asksage" (PStr "Unknown") ;;
  niprgpt <- answer_cell results "differentiators_from_niprgpt" (PStr "Unknown") ;;
  camogpt <- answer_cell results "differentiators_from_camogpt" (PStr "Unknown") ;;
  deployment <- confidence_cell results "deployment_method" ;;
  costs <- confidence_cell results "costs_estimate" ;;
  notes <- answer_cell results "notes" (PStr EmptyString) ;;
  ret [ ("Repository URL", PStr repo_url);
        ("RBAC Enabled?", rbac);
        ("Azure Gov Ready?", gov);
        ("Azure Secret Ready", secret);
        ("Chat History?", chat);
        ("# of Azure Services?", services);
        ("Arch Diagram", arch);
        ("Differentiators from AskSage", asksage);
        ("Differentiators from NIPRGPT", niprgpt);
        ("Differentiators from CamoGPT", camogpt);
        ("Deployment Method", deployment);
        ("Costs Estimate", costs);
        ("Notes", notes) ].

(** ** Repository name *)

(** [s.rstrip(c)] for a one-character [c] *)
Fixpoint rstrip (c : ascii) (s : string) : string :=
  match s with
  | EmptyString => EmptyString
  | String a s' =>
      match rstrip c s' with
      | EmptyString => if Ascii.eqb a c then EmptyString else String a EmptyString
      | r => String a r
      end
  end.

(** [s.split(c)] for a one-character [c] *)
Fixpoint split (c : ascii) (s : string) : list string :=
  match s with
  | EmptyString => [EmptyString]
  | String a s' =>
      if Ascii.eqb a c then EmptyString :: split c s'
      else match split c s' with
           | h :: t => String a h :: t
           | [] => [String a EmptyString]
           end
  end.

(** [l[-1]] *)
Definition index_last (l : list string) : outcome string :=
  match l with
  | [] => Raise (mkExn IndexError "list index out of range")
  | x :: l' => Ok (last l' x)
  end.

(** [url.rstrip('/').split('/')[-1]] *)
Definition derive_repo_name (url : string) : outcome string :=
  index_last (split "/" (rstrip "/" url)).

(** The same name as a plain function; [derive_repo_name] never raises
    (lemma [derive_repo_name_total]). *)
Definition repo_name (url : string) : string :=
  last (split "/" (rstrip "/" url)) EmptyString.

(** ** Data frames *)

(** A [pandas.DataFrame] as far as the notebook uses one: an index, the
    column labels and one list of cells per row, aligned with the labels.
    A cell is the Python object handed to pandas.  pandas infers a type
    per column and may convert the numbers, booleans and [None] of a
    column with it (an int beside a missing cell is stored as a float);
    that conversion is not modelled.  The statements about cell values
    are therefore made where no conversion applies: NaN for a missing key,
    and text, lists and dicts, which are stored as they are. *)
Record DataFrame : Type := mkDF {
  df_index_name : option string;
  df_index : list pyval;
  df_columns : list string;
  df_data : list (list pyval)
}.

Fixpoint mem_str (k : string) (l : list string) : bool :=
  match l with
  | [] => false
  | k' :: l' => String.eqb k k' || mem_str k l'
  end.

(** Labels of [l] followed by the labels of [ks] not yet seen. *)
Definition add_unseen (l ks : list string) : list string :=
  fold_left (fun acc k => if mem_str k acc then acc else (acc ++ [k])%list) ks l.

(** Column labels of [pd.DataFrame(records)]: the keys of the records in
    order of first appearance. *)
Definition union_keys (records : list dict) : list string :=
  fold_left (fun acc d => add_unseen acc (dict_keys d)) records [].

Definition cell_of (d : dict) (c : string) : pyval :=
  match dict_lookup c d with Some v => v | None => NaN end.

Definition range_index (n : nat) : list pyval :=
  map (fun i => PInt (Z.of_nat i)) (seq 0 n).

(** [pd.DataFrame(records)] for a list of dicts; a key a record lacks
    gives a NaN cell.  The cells are those of the records, before any
    conversion with their column. *)
Definition DataFrame_of_records (records : list dict) : DataFrame :=
  let cols := union_keys records in
  {| df_index_name := None;
     df_index := range_index (length records);
     df_columns := cols;
     df_data := map (fun d => map (cell_of d) cols) records |}.

Fixpoint position (k : string) (l : list string) : option nat :=
  match l with
  | [] => None
  | k' :: l' => if String.eqb k k' then Some 0
                else option_map S (position k l')
  end.

Definition remove_nth {A} (i : nat) (l : list A) : list A :=
  (firstn i l ++ skipn (S i) l)%list.

(** [df.set_index(name, inplace=True)] *)
Definition set_index (name : string) (df : DataFrame) : outcome DataFrame :=
  match position name (df_columns df) with
  | None => Raise (mkExn KeyError
                     (repr_str ("None of [" ++ repr_str name ++ "] are in the columns")))
  | Some i =>
      Ok {| df_index_name := Some name;
            df_index := map (fun row => nth i row NaN) (df_data df);
            df_columns := remove_nth i (df_columns df);
            df_data := map (remove_nth i) (df_data df) |}
  end.

Fixpoint mapM {A B} (f : A -> outcome B) (l : list A) : outcome (list B) :=
  match l with
  | [] => Ok []
  | a :: l' => b <- f a ;; bs <- mapM f l' ;; ret (b :: bs)
  end.

(** [df.applymap(f)]: [f] on every cell; the results are kept as [f]
    returned them, before any conversion with their column. *)
Definition applymap (f : pyval -> outcome pyval) (df : DataFrame)
  : outcome DataFrame :=
  data <- mapM (mapM f) (df_data df) ;;
  ret {| df_index_name := df_index_name df;
         df_index := df_index df;
         df_columns := df_columns df;
         df_data := data |}.

(** One cell of [df.replace(mapping)]: a cell equal to a key of the
    mapping becomes its value.  The keys are strings, and only a [str]
    compares equal to a [str]. *)
Definition replace_cell (mapping : dict) (v : pyval) : pyval :=
  match v with
  | PStr s => match dict_lookup s mapping with Some r => r | None => v end
  | _ => v
  end.

(** [df.replace(mapping)] *)
Definition replace (mapping : dict) (df : DataFrame) : DataFrame :=
  {| df_index_name := df_index_name df;
     df_index := df_index df;
     df_columns := df_columns df;
     df_data := map (map (replace_cell mapping)) (df_data df) |}.

(** ** The orchestrators *)

(** What the notebook calls but does not define.  Each collaborator either
    returns or raises; the two analyzers answer as functions of their
    argument. *)
Record World : Type := mkWorld {
  GitHubRepoAnalyzer_init : outcome unit;            (* [GitHubRepoAnalyzer()] *)
  AzureOpenAIAnalyzer_init : outcome unit;           (* [AzureOpenAIAnalyzer()] *)
  extract_repo_info : string -> outcome pyval;
  analyze_repo : pyval -> outcome pyval;
  json_dumps : pyval -> outcome string;              (* [json.dumps(_, indent=2)] *)
  to_csv : DataFrame -> string -> bool -> outcome unit  (* [df.to_csv(path, index=_)] *)
}.

(** A statement block either falls through with a value or executes
    [return v]. *)
Inductive flow (A : Type) : Type :=
| Next (a : A)
| Return (v : pyval).
Arguments Next {A} a.
Arguments Return {A} v.

Definition str_of_nat (n : nat) : string := str_of_Z (Z.of_nat n).

Fixpoint repeat_str (s : string) (n : nat) : string :=
  match n with
  | O => EmptyString
  | S n' => s ++ repeat_str s n'
  end.

(** [{"Repository Name": repo_name, **result}]: the items of [result] are
    written over the literal's in order. *)
Definition dict_update (base other : dict) : dict :=
  fold_left (fun acc kv => dict_set (fst kv) (snd kv) acc) other base.

(** [**v] inside a dict display *)
Definition unpack_mapping (v : pyval) : outcome dict :=
  match v with
  | PDict d => Ok d
  | _ => Raise (mkExn TypeError ("'" ++ type_name v ++ "' object is not a mapping"))
  end.

Definition comparison_csv : string := "data/repository_comparison.csv".
Definition formatted_csv : string := "data/formatted_repo_comparison.csv".

Section Notebook.

Variable W : World.

Definition analyze_github_repository (repo_url : string) (verbose : bool)
  : py pyval :=
  print ("Analyzing repository: " ++ repo_url) ;;
  (* Step 1: initialize analyzers *)
  lift (GitHubRepoAnalyzer_init W) ;;
  lift (AzureOpenAIAnalyzer_init W) ;;
  (* Step 2: extract repository information *)
  print "Extracting repository information..." ;;
  step2 <- try_except
    (repo_data <- lift (extract_repo_info W repo_url) ;;
     (if verbose
      then dumped <- lift (json_dumps W repo_data) ;;
           print ("Repository information: " ++ nl ++ " " ++ dumped)
      else ret tt) ;;
     ret (Next repo_data))
    (fun e =>
       print ("Error extracting repository data: " ++ exn_msg e) ;;
       ret (Return PNone)) ;;
  match step2 with
  | Return v => ret v
  | Next repo_data =>
      (* Step 3: analyze with Azure OpenAI *)
      print "Analyzing repository with Azure OpenAI..." ;;
      step3 <- try_except
        (analysis_results <- lift (analyze_repo W repo_data) ;;
         ret (Next analysis_results))
        (fun e =>
           print ("Error during OpenAI analysis: " ++ exn_msg e) ;;
           ret (Return PNone)) ;;
      match step3 with
      | Return v => ret v
      | Next analysis_results =>
          (* Step 4 *)
          print "Analysis complete!" ;;
          ret analysis_results
      end
  end.

Definition banner (url : string) : string :=
  nl ++ repeat_str "=" 50 ++ nl ++ "Analyzing: " ++ url ++ nl ++ repeat_str "=" 50.

(** The [for url in repo_urls] loop; [results] is the list it appends
    to. *)
Fixpoint analyze_loop (repo_urls : list string) (results : list dict)
  : py (list dict) :=
  match repo_urls with
  | [] => ret results
  | url :: rest =>
      print (banner url) ;;
      result <- analyze_github_repository url false ;;
      results' <-
        (if truthy result
         then name <- lift (derive_repo_name url) ;;
              items <- lift (unpack_mapping result) ;;
              ret (results ++ [dict_update [("Repository Name", PStr name)] items])%list
         else ret results) ;;
      analyze_loop rest results'
  end.

(** Returns [Some df] for the data frame and [None] for Python's
    [None]. *)
Definition analyze_multiple_repositories (repo_urls : list string)
  : py (option DataFrame) :=
  results <- analyze_loop repo_urls [] ;;
  match results with
  | _ :: _ =>
      df <- lift (set_index "Repository Name" (DataFrame_of_records results)) ;;
      lift (to_csv W df comparison_csv true) ;;
      print (nl ++ "Analysis of " ++ str_of_nat (length results)
                ++ " repositories saved to " ++ comparison_csv) ;;
      ret (Some df)
  | [] =>
      print "No valid analysis results" ;;
      ret None
  end.

End Notebook.

(** ** Boolean normalisation *)

(** [lambda x: x.get('answer') if isinstance(x, dict)
               else (x.get('value') if isinstance(x, dict) else x)],
    with the inner branch abstracted as [fallback]. *)
Definition answer_lambda_with (fallback : pyval -> outcome pyval) (x : pyval)
  : outcome pyval :=
  if isinstance_dict x then py_get x "answer" PNone
  else (if isinstance_dict x then fallback x else Ok x).

Definition answer_lambda : pyval -> outcome pyval :=
  answer_lambda_with (fun x => py_get x "value" PNone).

Definition yes_no : dict := [("Yes", PBool true); ("No", PBool false)].

(** The normalisation step on one cell. *)
Definition normalize_cell (x : pyval) : outcome pyval :=
  a <- answer_lambda x ;;
  ret (replace_cell yes_no a).

(** [comparison_df.applymap(lambda ...).replace({"Yes": True, "No": False})] *)
Definition answers_df (comparison_df : DataFrame) : outcome DataFrame :=
  extracted <- applymap answer_lambda comparison_df ;;
  ret (replace yes_no extracted).

(** The whole cell, with the file it writes. *)
Definition answers_cell (W : World) (comparison_df : DataFrame) : py DataFrame :=
  df <- lift (answers_df comparison_df) ;;
  lift (to_csv W df formatted_csv false) ;;
  ret df.

(** The normalisation of one row of cells. *)
Definition normalize_row (row : list pyval) : outcome (list pyval) :=
  mapM normalize_cell row.

(** ** The remaining cells of the notebook *)

(** *** Configuration check *)





(** *** Interactive input *)

(** The [while True] loop of [input_multiple_repos] over the lines still
    to be read from standard input: [input()] takes the next line and
    raises [EOFError] when there is none.  Returns the URLs with the lines
    left unread. *)
Fixpoint input_loop (stdin : list string) (urls : list string)
  : outcome (list string * list string) :=
  match stdin with
  | [] => Raise (mkExn (OtherException "EOFError") "EOF when reading a line")
  | url :: rest =>
      if negb (truthy (PStr url))
      then Ok (urls, rest)
      else input_loop rest (urls ++ [url])
  end.

Definition input_prompt : string :=
  "Enter GitHub repository URLs (one per line). Enter a blank line when finished:".

Definition input_multiple_repos (stdin : list string)
  : py (list string * list string) :=
  print input_prompt ;;
  lift (input_loop stdin []).

(** *** The cells that call the orchestrators *)

(** What the calling cells use of pandas and IPython besides [to_csv]. *)
Record Frontend : Type := mkFrontend {
  DataFrame_from_dict : pyval -> outcome DataFrame;  (* [pd.DataFrame.from_dict(_)] *)
  display_html : DataFrame -> outcome unit           (* [display(HTML(df.to_html()))] *)
}.

(** Attribute access on [None], as in [None.to_html]. *)
Definition none_has_no (attribute : string) : exn :=
  mkExn AttributeError
    ("'NoneType' object has no attribute '" ++ attribute ++ "'").

(** The cell "Analyze a Single Repository" of [Accelerator_Info.ipynb]. *)
Definition single_repository_cell (W : World) (F : Frontend) (repo_url : string)
  : py unit :=
  analysis_result <- analyze_github_repository W repo_url false ;;
  analysis_result_formatted <-
    lift (format_analysis_results repo_url analysis_result) ;;
  if truthy (PDict analysis_result_formatted)
  then
    df <- lift (DataFrame_from_dict F analysis_result) ;;
    lift (display_html F df) ;;
    name <- lift (derive_repo_name repo_url) ;;
    let filename := name ++ "_analysis.csv" in
    lift (to_csv W df filename true) ;;
    print ("Analysis saved to " ++ filename)
  else ret tt.

(** The cell "Example usage for batch analysis":
    [comparison_df = analyze_multiple_repositories(repo_urls)] followed by
    [display(HTML(comparison_df.to_html()))]. *)
Definition batch_cell (W : World) (F : Frontend) (repo_urls : list string)
  : py (option DataFrame) :=
  comparison_df <- analyze_multiple_repositories W repo_urls ;;
  match comparison_df with
  | Some df => lift (display_html F df) ;; ret comparison_df
  | None => lift (Raise (none_has_no "to_html"))
  end.

(** ** Notions used by the statements *)

(** A computation is [framed] when it only appends to the output and its
    outcome does not depend on what was printed before. *)
Definition framed {A} (c : py A) : Prop :=
  forall out, c out = (fst (c []), (out ++ snd (c []))%list).

(** The value the normalisation step leaves in a cell. *)
Definition normalized (x : pyval) : pyval :=
  replace_cell yes_no
    (match x with
     | PDict d => match dict_lookup "answer" d with Some a => a | None => PNone end
     | _ => x
     end).

(** A cell as an analysis result gives it: any value that is not a dict,
    or a per-question dict whose answer, if it has one, is not itself a
    dict (an answer is a boolean, a number, a string or a list). *)
Definition answer_record_like (x : pyval) : bool :=
  match x with
  | PDict d => match dict_lookup "answer" d with
               | Some a => negb (isinstance_dict a)
               | None => true
               end
  | _ => true
  end.

Definition with_data (df : DataFrame) (data : list (list pyval)) : DataFrame :=
  {| df_index_name := df_index_name df;
     df_index := df_index df;
     df_columns := df_columns df;
     df_data := data |}.

(** A comparison frame as the notebook displays one, shortened. *)
Definition sample_frame : DataFrame :=
  {| df_index_name := Some "Repository Name";
     df_index := [PStr "azurechat"];
     df_columns := ["rbac_enabled"; "chat_history"; "azure_services_count";
                    "differentiators_from_asksage"; "notes"];
     df_data :=
       [[ PDict [("answer", PStr "No"); ("explanation", PStr "not mentioned");
                 ("confidence", PStr "high")];
          PDict [("answer", PStr "Yes"); ("explanation", PStr "Cosmos DB");
                 ("confidence", PStr "high")];
          PDict [("answer", PInt 11); ("confidence", PStr "high")];
          PDict [("answer", PList [PStr "a"; PStr "b"]); ("confidence", PStr "high")];
          NaN ]] |}.

(** How a question is rendered in a formatted row: answer and confidence,
    or the answer alone with its own default. *)
Inductive rendering : Type :=
| WithConfidence
| AnswerOnly (default : string).

(** The catalogue behind [format_analysis_results]: question key, column
    label and rendering, in the order of the dict display. *)
Definition catalogue : list (string * (string * rendering)) :=
  [ ("rbac_enabled", ("RBAC Enabled?", WithConfidence));
    ("azure_gov_ready", ("Azure Gov Ready?", WithConfidence));
    ("azure_secret_ready", ("Azure Secret Ready", WithConfidence));
    ("chat_history", ("Chat History?", WithConfidence));
    ("azure_services_count", ("# of Azure Services?", WithConfidence));
    ("architecture_diagram_present", ("Arch Diagram", WithConfidence));
    ("differentiators_from_asksage",
      ("Differentiators from AskSage", AnswerOnly "Unknown"));
    ("differentiators_from_niprgpt",
      ("Differentiators from NIPRGPT", AnswerOnly "Unknown"));
    ("differentiators_from_camogpt",
      ("Differentiators from CamoGPT", AnswerOnly "Unknown"));
    ("deployment_method", ("Deployment Method", WithConfidence));
    ("costs_estimate", ("Costs Estimate", WithConfidence));
    ("notes", ("Notes", AnswerOnly EmptyString)) ].

(** The cell a formatted row shows for a question the results lack. *)
Definition default_cell (r : rendering) : pyval :=
  match r with
  | WithConfidence => PStr "Unknown (low)"
  | AnswerOnly default => PStr default
  end.

Definition render_cell (results : pyval) (entry : string * (string * rendering))
  : outcome pyval :=
  match snd (snd entry) with
  | WithConfidence => confidence_cell results (fst entry)
  | AnswerOnly default => answer_cell results (fst entry) (PStr default)
  end.

Definition has_no_get : exn :=
  mkExn AttributeError "'str' object has no attribute 'get'".

(** What the single-repository orchestrator returns for [url] in a batch
    run, and what it prints. *)
Definition analysis_of (W : World) (url : string) : outcome pyval :=
  fst (run (analyze_github_repository W url false)).

Definition analysis_log (W : World) (url : string) : list string :=
  snd (run (analyze_github_repository W url false)).

(** The test [if result:] of the batch loop. *)
Definition yields_row (W : World) (url : string) : bool :=
  match analysis_of W url with
  | Ok v => truthy v
  | Raise _ => false
  end.

(** The record the batch loop appends for [url]. *)
Definition record_of (W : World) (url : string) : dict :=
  match analysis_of W url with
  | Ok (PDict d) => dict_update [("Repository Name", PStr (repo_name url))] d
  | _ => []
  end.

(** The index entry of the row of [url]. *)
Definition index_cell (W : World) (url : string) : pyval :=
  cell_of (record_of W url) "Repository Name".

Definition not_a_mapping (v : pyval) : exn :=
  mkExn TypeError ("'" ++ type_name v ++ "' object is not a mapping").

(** A world for examples: every repository but [B] can be fetched, and
    the completion service answers with the keys it chooses. *)
Definition sample_url_A : string := "https://github.com/org/A/".
Definition sample_url_B : string := "https://github.com/org/B".
Definition sample_url_C : string := "https://github.com/org/C".

Definition sample_world : World :=
  {| GitHubRepoAnalyzer_init := Ok tt;
     AzureOpenAIAnalyzer_init := Ok tt;
     extract_repo_info := fun url =>
       if String.eqb url sample_url_B
       then Raise (mkExn (OtherException "FetchError") "404 Not Found")
       else Ok (PDict [("url", PStr url)]);
     analyze_repo := fun repo_data =>
       match repo_data with
       | PDict [("url", PStr url)] =>
           if String.eqb url sample_url_A
           then Ok (PDict
                  [("rbac_enabled",
                    PDict [("answer", PStr "No"); ("confidence", PStr "high")]);
                   ("differentiators_from_aiflow",
                    PDict [("answer", PList [PStr "It is not Government Owned"])])])
           else Ok (PDict
                  [("notes", PDict [("answer", PStr "well documented")]);
                   ("rbac_enabled",
                    PDict [("answer", PStr "Yes"); ("confidence", PStr "high")])])
       | _ => Raise (mkExn (OtherException "ExtractionError") "no document")
       end;
     json_dumps := fun _ => Ok "{}";
     to_csv := fun _ _ _ => Ok tt |}.

(** The frame the batch orchestrator builds from its records: the
    ["Repository Name"] entries as index, the remaining keys as columns. *)
Definition batch_frame (records : list dict) : DataFrame :=
  let cols := tl (union_keys records) in
  {| df_index_name := Some "Repository Name";
     df_index := map (fun d => cell_of d "Repository Name") records;
     df_columns := cols;
     df_data := map (fun d => map (cell_of d) cols) records |}.

(** The records of a batch run over [urls]. *)
Definition batch_records (W : World) (urls : list string) : list dict :=
  map (record_of W) (filter (yields_row W) urls).

Definition saved_line (n : nat) : string :=
  nl ++ "Analysis of " ++ str_of_nat n ++ " repositories saved to " ++ comparison_csv.

(** A record whose first key is ["Repository Name"]. *)
Definition named (d : dict) : Prop :=
  exists v rest, d = ("Repository Name", v) :: rest.

(** Lines the single-repository orchestrator prints. *)
Definition start_line (url : string) : string := "Analyzing repository: " ++ url.
Definition fetch_line : string := "Extracting repository information...".
Definition completion_line : string := "Analyzing repository with Azure OpenAI...".
Definition fetch_error_line (e : exn) : string :=
  "Error extracting repository data: " ++ exn_msg e.
Definition completion_error_line (e : exn) : string :=
  "Error during OpenAI analysis: " ++ exn_msg e.

Definition sample_urls : list string := [sample_url_A; sample_url_B; sample_url_C].

Definition sample_answers_A : dict :=
  [("rbac_enabled", PDict [("answer", PStr "No"); ("confidence", PStr "high")]);
   ("differentiators_from_aiflow",
    PDict [("answer", PList [PStr "It is not Government Owned"])])].

Definition sample_answers_C : dict :=
  [("notes", PDict [("answer", PStr "well documented")]);
   ("rbac_enabled", PDict [("answer", PStr "Yes"); ("confidence", PStr "high")])].

(** The table of the batch run over [sample_urls] in [sample_world]. *)
Definition sample_table : DataFrame :=
  {| df_index_name := Some "Repository Name";
     df_index := [PStr "A"; PStr "C"];
     df_columns := ["rbac_enabled"; "differentiators_from_aiflow"; "notes"];
     df_data :=
       [ [ PDict [("answer", PStr "No"); ("confidence", PStr "high")];
           PDict [("answer", PList [PStr "It is not Government Owned"])];
           NaN ];
         [ PDict [("answer", PStr "Yes"); ("confidence", PStr "high")];
           NaN;
           PDict [("answer", PStr "well documented")] ] ] |}.

(** What that run prints. *)
Definition sample_log : list string :=
  snd (analyze_multiple_repositories sample_world sample_urls []).

(** A world whose completion service answers with an empty dict for the
    empty document and with unparsed text otherwise. *)
Definition unshaped_world : World :=
  {| GitHubRepoAnalyzer_init := Ok tt;
     AzureOpenAIAnalyzer_init := Ok tt;
     extract_repo_info := fun url => Ok (PStr url);
     analyze_repo := fun repo_data =>
       if truthy repo_data then Ok (PStr "{}") else Ok (PDict []);
     json_dumps := fun _ => Ok "{}";
     to_csv := fun _ _ _ => Ok tt |}.

(** ** Notions used by the further properties *)

(** [q.get(k, default)] on a dict. *)
Definition field (q : dict) (k : string) (default : pyval) : pyval :=
  match dict_lookup k q with
  | Some v => v
  | None => default
  end.

(** The per-question object [results.get(key, {})] of results whose
    fields are dicts. *)
Definition question_object (d : dict) (key : string) : dict :=
  match dict_lookup key d with
  | Some (PDict q) => q
  | _ => []
  end.

(** The cell a formatted row shows for a catalogue entry. *)
Definition shown_cell (d : dict) (key : string) (r : rendering) : pyval :=
  let q := question_object d key in
  match r with
  | WithConfidence =>
      PStr (py_str (field q "answer" (PStr "Unknown"))
              ++ " (" ++ py_str (field q "confidence_level" (PStr "low")) ++ ")")
  | AnswerOnly default => field q "answer" (PStr default)
  end.

Definition no_attribute_get (v : pyval) : exn :=
  mkExn AttributeError ("'" ++ type_name v ++ "' object has no attribute 'get'").

Definition complete_line : string := "Analysis complete!".

(** The line the verbose orchestrator prints for a dumped document. *)
Definition dump_line (dumped : string) : string :=
  "Repository information: " ++ nl ++ " " ++ dumped.



(** The file of the single-repository cell and the line that reports it. *)
Definition analysis_file (url : string) : string := repo_name url ++ "_analysis.csv".
Definition saved_to_line (file : string) : string := "Analysis saved to " ++ file.

(** The response of the completion service for a URL that gave a row. *)
Definition response (W : World) (url : string) : dict :=
  match analysis_of W url with
  | Ok (PDict d) => d
  | _ => []
  end.

(** The labels of [l], each at its first occurrence. *)
Fixpoint first_occurrences (l : list string) : list string :=
  match l with
  | [] => []
  | k :: l' => k :: filter (fun x => negb (String.eqb x k)) (first_occurrences l')
  end.

Definition other_than (k : string) (l : list string) : list string :=
  filter (fun x => negb (String.eqb x k)) l.

(** Values that a data frame stores as the objects they are, whatever
    else their column holds: text, lists and dicts.  Numbers, booleans and
    [None] may be converted with their column. *)
Definition stored_as_is (v : pyval) : bool :=
  match v with
  | PStr _ | PList _ | PDict _ => true
  | _ => false
  end.

(** A cell under column [k] of the row built from the record [d]. *)
Definition cell_agrees (d : dict) (k : string) (cell : pyval) : Prop :=
  match dict_lookup k d with
  | None => cell = NaN
  | Some v => stored_as_is v = true -> cell = v
  end.

(** Text of ASCII characters only. *)
Fixpoint ascii_text (s : string) : bool :=
  match s with
  | EmptyString => true
  | String c s' => Nat.ltb (nat_of_ascii c) 128 && ascii_text s'
  end.

(** Values in which all text, at any depth, is ASCII. *)
Fixpoint ascii_value (v : pyval) : bool :=
  match v with
  | PStr s => ascii_text s
  | PList l => forallb ascii_value l
  | PDict d => forallb (fun kv => ascii_text (fst kv) && ascii_value (snd kv)) d
  | _ => true
  end.

(** Values whose [str] is rendered exactly by [py_str]: a text is its own
    [str]; any other value goes through [repr], which [py_repr] renders
    exactly when the text inside is ASCII. *)
Definition str_exact (v : pyval) : bool :=
  match v with
  | PStr _ => true
  | _ => ascii_value v
  end.

(** * Properties *)

(** ** The printing monad *)

Lemma framed_ret {A} (a : A) : framed (ret a : py A).
Proof. intros out. cbn. now rewrite app_nil_r. Qed.

Lemma framed_print line : framed (print line).
Proof. intros out. reflexivity. Qed.

Lemma framed_lift {A} (c : outcome A) : framed (lift c).
Proof. intros out. cbn. now rewrite app_nil_r. Qed.

Lemma framed_bind {A B} (c : py A) (k : A -> py B) :
  framed c -> (forall a, framed (k a)) -> framed (bind c k).
Proof.
  intros Hc Hk out. cbn. rewrite (Hc out).
  destruct (c []) as [[a | e] l]; cbn.
  - rewrite (Hk a (out ++ l)%list), (Hk a l). cbn. now rewrite app_assoc.
  - reflexivity.
Qed.

Lemma framed_try_except {A} (body : py A) (handler : exn -> py A) :
  framed body -> (forall e, framed (handler e)) -> framed (try_except body handler).
Proof.
  intros Hb Hh out. unfold try_except. rewrite (Hb out).
  destruct (body []) as [[a | e] l]; cbn; [reflexivity |].
  destruct (is_Exception e); [| reflexivity].
  rewrite (Hh e (out ++ l)%list), (Hh e l). cbn. now rewrite app_assoc.
Qed.

Ltac framed_tac :=
  repeat match goal with
         | |- framed (bind _ _) => apply framed_bind
         | |- framed (try_except _ _) => apply framed_try_except
         | |- framed (print _) => apply framed_print
         | |- framed (lift _) => apply framed_lift
         | |- framed (ret _) => apply framed_ret
         | |- forall _, framed _ => intro
         | |- framed (if ?b then _ else _) => destruct b
         | |- framed (match ?x with _ => _ end) => destruct x
         end.

Lemma framed_analyze_github_repository W url verbose :
  framed (analyze_github_repository W url verbose).
Proof. unfold analyze_github_repository. framed_tac. Qed.

Lemma framed_analyze_loop W urls :
  forall results, framed (analyze_loop W urls results).
Proof.
  induction urls as [| url rest IH]; intros results; cbn [analyze_loop].
  - apply framed_ret.
  - apply framed_bind; [apply framed_print | intros _].
    apply framed_bind; [apply framed_analyze_github_repository | intros result].
    apply framed_bind; [framed_tac | intros results'; apply IH].
Qed.

Lemma framed_analyze_multiple_repositories W urls :
  framed (analyze_multiple_repositories W urls).
Proof.
  unfold analyze_multiple_repositories.
  apply framed_bind; [apply framed_analyze_loop | intros results].
  framed_tac.
Qed.

(** ** Repository name *)

Lemma rstrip_app_sep c s : rstrip c (s ++ String c EmptyString) = rstrip c s.
Proof.
  induction s as [| a s IH]; cbn.
  - now rewrite Ascii.eqb_refl.
  - now rewrite IH.
Qed.

Lemma split_not_nil c s : split c s <> [].
Proof.
  destruct s as [| a s]; cbn; [discriminate |].
  destruct (Ascii.eqb a c); [discriminate |].
  destruct (split c s); discriminate.
Qed.

Lemma split_segments c s : Forall (fun seg => contains_char c seg = false) (split c s).
Proof.
  induction s as [| a s IH]; cbn.
  - repeat constructor.
  - destruct (Ascii.eqb a c) eqn:E.
    + constructor; [reflexivity | exact IH].
    + destruct (split c s) as [| h t].
      * repeat constructor. cbn. now rewrite E.
      * inversion IH; subst. constructor; [cbn; now rewrite E | assumption].
Qed.

Lemma last_Forall {A} (P : A -> Prop) (l : list A) (d : A) :
  Forall P l -> P d -> P (last l d).
Proof.
  induction 1 as [| x l Hx Hl IH]; intros Hd; cbn; [assumption |].
  destruct l; [assumption | now apply IH].
Qed.

Lemma last_cons_default {A} (l : list A) :
  forall x d : A, last (x :: l) d = last l x.
Proof.
  induction l as [| y l IH]; intros x d; [reflexivity |].
  change (last (x :: y :: l) d) with (last (y :: l) d).
  now rewrite (IH y d), (IH y x).
Qed.

Lemma derive_repo_name_total url : derive_repo_name url = Ok (repo_name url).
Proof.
  unfold derive_repo_name, repo_name, index_last.
  destruct (split "/" (rstrip "/" url)) as [| x l] eqn:E.
  - now apply split_not_nil in E.
  - now rewrite last_cons_default.
Qed.

(** C8: the repository name is the last [/]-separated segment of the URL
    once its trailing slashes are stripped: the derivation never raises,
    the name holds no slash, one more trailing slash does not change it,
    and both [https://github.com/org/repo/] and
    [https://github.com/org/repo] give [repo]. *)
Theorem repo_name_derivation :
  derive_repo_name "https://github.com/org/repo/" = Ok "repo" /\
  derive_repo_name "https://github.com/org/repo" = Ok "repo" /\
  (forall url,
      derive_repo_name url = Ok (last (split "/" (rstrip "/" url)) EmptyString)) /\
  (forall url, derive_repo_name (url ++ "/") = derive_repo_name url) /\
  (forall url, contains_char "/" (repo_name url) = false).
Proof.
  split; [reflexivity |]. split; [reflexivity |].
  split; [exact derive_repo_name_total |]. split.
  - intros url. unfold derive_repo_name. now rewrite rstrip_app_sep.
  - intros url. unfold repo_name. apply last_Forall; [apply split_segments | reflexivity].
Qed.

(** ** Boolean normalisation *)

Lemma answer_lambda_with_fallback fallback x :
  answer_lambda_with fallback x = answer_lambda x.
Proof. destruct x; reflexivity. Qed.

Lemma answer_lambda_total x :
  answer_lambda x =
  Ok (match x with
      | PDict d => match dict_lookup "answer" d with Some a => a | None => PNone end
      | _ => x
      end).
Proof. destruct x; reflexivity. Qed.

Lemma normalize_cell_total x : normalize_cell x = Ok (normalized x).
Proof. unfold normalize_cell. rewrite answer_lambda_total. reflexivity. Qed.

(** C10: the cell function of the normalisation step never raises; on a
    dict without an ['answer'] key it gives [None], on a value that is not
    a dict it gives the value back, and whatever stands in the inner
    ['value'] branch has no effect on the result. *)
Theorem answer_lambda_cases (x : pyval) :
  (forall fallback, answer_lambda_with fallback x = answer_lambda x) /\
  (forall d, x = PDict d -> dict_lookup "answer" d = None ->
             answer_lambda x = Ok PNone) /\
  (isinstance_dict x = false -> answer_lambda x = Ok x).
Proof.
  split; [intros fallback; apply answer_lambda_with_fallback |]. split.
  - intros d -> Hd. rewrite answer_lambda_total. now rewrite Hd.
  - intros Hx. rewrite answer_lambda_total. destruct x; try reflexivity.
    discriminate Hx.
Qed.

Lemma answer_lambda_cases_witness :
  answer_lambda (PDict [("value", PStr "Yes")]) = Ok PNone /\
  answer_lambda (PStr "Unknown") = Ok (PStr "Unknown").
Proof.
  split.
  - apply (proj1 (proj2 (answer_lambda_cases (PDict [("value", PStr "Yes")])))
             [("value", PStr "Yes")]); reflexivity.
  - apply (proj2 (proj2 (answer_lambda_cases (PStr "Unknown")))). reflexivity.
Defined.


Lemma mapM_total {A B} (f : A -> outcome B) (g : A -> B) (l : list A) :
  (forall a, f a = Ok (g a)) -> mapM f l = Ok (map g l).
Proof.
  intros H. induction l as [| a l IH]; cbn; [reflexivity |].
  now rewrite H, IH.
Qed.

Lemma answers_df_total df :
  answers_df df = Ok (with_data df (map (map normalized) (df_data df))).
Proof.
  unfold answers_df, applymap.
  rewrite (mapM_total _ (map (fun x =>
             match x with
             | PDict d => match dict_lookup "answer" d with
                          | Some a => a | None => PNone end
             | _ => x
             end))).
  - cbn. unfold replace, with_data. cbn. f_equal. f_equal.
    rewrite map_map. apply map_ext. intros row. rewrite map_map. reflexivity.
  - intros row. apply mapM_total. apply answer_lambda_total.
Qed.



Lemma normalized_idempotent x :
  answer_record_like x = true -> normalized (normalized x) = normalized x.
Proof.
  unfold normalized, answer_record_like.
  destruct x as [| | | | s | | d]; try reflexivity.
  - intros _. cbn. destruct (String.eqb s "Yes") eqn:Ey; [reflexivity |].
    destruct (String.eqb s "No") eqn:En; [reflexivity |].
    cbn. now rewrite Ey, En.
  - destruct (dict_lookup "answer" d) as [a |]; [| reflexivity].
    destruct a as [| | | | s | | d']; try reflexivity; [| discriminate].
    intros _. cbn. destruct (String.eqb s "Yes") eqn:Ey; [reflexivity |].
    destruct (String.eqb s "No") eqn:En; [reflexivity |].
    cbn. now rewrite Ey, En.
Qed.

Lemma normalize_row_idempotent row :
  forallb answer_record_like row = true ->
  exists row1, normalize_row row = Ok row1 /\ normalize_row row1 = Ok row1.
Proof.
  intros H. exists (map normalized row). unfold normalize_row.
  rewrite !(mapM_total _ normalized) by apply normalize_cell_total.
  split; [reflexivity |]. f_equal. rewrite map_map. apply map_ext_in.
  intros x Hx. apply normalized_idempotent.
  rewrite forallb_forall in H. now apply H.
Qed.

(** C7: the normalisation step is idempotent on rows derived from
    analysis results: on a data frame whose cells are per-question records
    (or plain values), the step returns a frame that a second application
    returns unchanged; the same holds row by row. *)
Theorem normalization_idempotent (df : DataFrame) :
  forallb (forallb answer_record_like) (df_data df) = true ->
  (exists df1, answers_df df = Ok df1 /\ answers_df df1 = Ok df1) /\
  Forall (fun row => exists row1, normalize_row row = Ok row1 /\
                                  normalize_row row1 = Ok row1) (df_data df).
Proof.
  intros H. rewrite forallb_forall in H. split.
  - exists (with_data df (map (map normalized) (df_data df))).
    rewrite !answers_df_total. split; [reflexivity |].
    unfold with_data. cbn. f_equal. f_equal.
    rewrite map_map. apply map_ext_in. intros row Hrow.
    rewrite map_map. apply map_ext_in. intros x Hx.
    apply normalized_idempotent.
    specialize (H row Hrow). rewrite forallb_forall in H. now apply H.
  - apply Forall_forall. intros row Hrow. apply normalize_row_idempotent.
    now apply H.
Qed.

Lemma normalization_idempotent_witness :
  (exists df1, answers_df sample_frame = Ok df1 /\ answers_df df1 = Ok df1) /\
  Forall (fun row => exists row1, normalize_row row = Ok row1 /\
                                  normalize_row row1 = Ok row1)
         (df_data sample_frame).
Proof. apply (normalization_idempotent sample_frame). reflexivity. Defined.

(** The restriction to analysis-result cells matters: an answer that is
    itself a dict is unwrapped once more by a second pass. *)
Example nested_answer_not_idempotent :
  normalize_cell (PDict [("answer", PDict [("answer", PStr "Yes")])])
  = Ok (PDict [("answer", PStr "Yes")]) /\
  normalize_cell (PDict [("answer", PStr "Yes")]) = Ok (PBool true).
Proof. split; reflexivity. Qed.

(** ** The formatter *)

Lemma catalogue_keys : map fst catalogue = question_keys.
Proof. reflexivity. Qed.

Lemma catalogue_labels :
  "Repository URL" :: map (fun entry => fst (snd entry)) catalogue
  = formatted_columns.
Proof. reflexivity. Qed.

(** Case analysis on the twelve cells, in the order the dict display
    evaluates them; [fin] closes the branch where a cell raises. *)
Ltac on_cell c fin :=
  destruct c eqn:?; cbn [bind ret Monad_outcome]; [| fin].

Ltac walk_cells r fin :=
  on_cell (confidence_cell r "rbac_enabled") fin;
  on_cell (confidence_cell r "azure_gov_ready") fin;
  on_cell (confidence_cell r "azure_secret_ready") fin;
  on_cell (confidence_cell r "chat_history") fin;
  on_cell (confidence_cell r "azure_services_count") fin;
  on_cell (confidence_cell r "architecture_diagram_present") fin;
  on_cell (answer_cell r "differentiators_from_asksage" (PStr "Unknown")) fin;
  on_cell (answer_cell r "differentiators_from_niprgpt" (PStr "Unknown")) fin;
  on_cell (answer_cell r "differentiators_from_camogpt" (PStr "Unknown")) fin;
  on_cell (confidence_cell r "deployment_method") fin;
  on_cell (confidence_cell r "costs_estimate") fin;
  on_cell (answer_cell r "notes" (PStr EmptyString)) fin.

(** The dict display of [format_analysis_results] is the catalogue read
    in order. *)
Lemma format_by_catalogue url results :
  format_analysis_results url results =
  (cells <- mapM (render_cell results) catalogue ;;
   ret (("Repository URL", PStr url)
          :: combine (map (fun entry => fst (snd entry)) catalogue) cells)).
Proof.
  unfold format_analysis_results, catalogue.
  cbn [mapM render_cell fst snd map].
  walk_cells results reflexivity.
  reflexivity.
Qed.

(** Whenever the formatter returns, the row has the thirteen fixed
    columns in order. *)
Lemma format_columns url results row :
  format_analysis_results url results = Ok row ->
  dict_keys row = formatted_columns.
Proof.
  unfold format_analysis_results.
  walk_cells results ltac:(discriminate).
  intros H. injection H as <-. reflexivity.
Qed.

Lemma py_get_raise x k default e :
  py_get x k default = Raise e -> exn_class_of e = AttributeError.
Proof. destruct x; cbn; intros H; inversion H; reflexivity. Qed.

Lemma confidence_cell_raise results key e :
  confidence_cell results key = Raise e -> exn_class_of e = AttributeError.
Proof.
  unfold confidence_cell.
  repeat (let E := fresh "E" in
          match goal with
          | |- context [py_get ?x ?k ?d] =>
              destruct (py_get x k d) eqn:E; cbn [bind ret Monad_outcome];
              [| intros H; inversion H; subst; eapply py_get_raise; eassumption]
          end).
  discriminate.
Qed.

Lemma answer_cell_raise results key default e :
  answer_cell results key default = Raise e -> exn_class_of e = AttributeError.
Proof.
  unfold answer_cell.
  destruct (py_get results key (PDict [])) eqn:E; cbn [bind ret Monad_outcome].
  - apply py_get_raise.
  - intros H; inversion H; subst. eapply py_get_raise; eassumption.
Qed.

Lemma render_cell_raise results entry e :
  render_cell results entry = Raise e -> exn_class_of e = AttributeError.
Proof.
  unfold render_cell. destruct (snd (snd entry)).
  - apply confidence_cell_raise.
  - apply answer_cell_raise.
Qed.

Lemma render_cell_bare_string d entry s :
  dict_lookup (fst entry) d = Some (PStr s) ->
  render_cell (PDict d) entry = Raise has_no_get.
Proof.
  intros H. unfold render_cell, confidence_cell, answer_cell.
  destruct (snd (snd entry)); cbn; rewrite H; reflexivity.
Qed.

Lemma mapM_raise_in {A B} (f : A -> outcome B) (P : exn -> Prop) (l : list A) x :
  (forall a e, f a = Raise e -> P e) ->
  In x l -> raises (f x) = true ->
  exists e, mapM f l = Raise e /\ P e.
Proof.
  intros HP. induction l as [| a l IH]; intros Hin Hx; [contradiction |].
  cbn. destruct (f a) as [b | e] eqn:Ea.
  - destruct Hin as [-> | Hin]; [rewrite Ea in Hx; discriminate |].
    destruct (IH Hin Hx) as (e & -> & He). now exists e.
  - exists e. split; [reflexivity | now apply HP with a].
Qed.

(** A question that maps to a bare string makes the formatter raise
    [AttributeError], whichever question it is. *)
Lemma format_raises_on_bare_string url d key s :
  In key question_keys ->
  dict_lookup key d = Some (PStr s) ->
  exists e, format_analysis_results url (PDict d) = Raise e /\
            exn_class_of e = AttributeError.
Proof.
  intros Hkey Hs. rewrite format_by_catalogue.
  rewrite <- catalogue_keys in Hkey. apply in_map_iff in Hkey.
  destruct Hkey as (entry & <- & Hin).
  destruct (mapM_raise_in (render_cell (PDict d))
              (fun e => exn_class_of e = AttributeError) catalogue entry)
    as (e & -> & He); auto.
  - intros a e. apply render_cell_raise.
  - now rewrite (render_cell_bare_string _ _ Hs).
  - now exists e.
Qed.

(** C1: a question field that is a bare string does not degrade to
    ["Unknown (low)"]: whichever question it is, [format_analysis_results]
    raises an attribute error and returns no row; on the results
    [{"rbac_enabled": "Yes"}] the error is
    ['str' object has no attribute 'get']. *)
Theorem format_bare_string_raises :
  format_analysis_results "https://github.com/org/repo"
    (PDict [("rbac_enabled", PStr "Yes")])
  = Raise (mkExn AttributeError "'str' object has no attribute 'get'") /\
  (forall url d key s,
      In key question_keys ->
      dict_lookup key d = Some (PStr s) ->
      exists e, format_analysis_results url (PDict d) = Raise e /\
                exn_class_of e = AttributeError).
Proof.
  split.
  - reflexivity.
  - intros url d key s Hkey Hs.
    destruct (@format_raises_on_bare_string url d key s Hkey Hs) as (e & He & Hc).
    exists e. now split.
Qed.

Lemma format_bare_string_raises_witness :
  exists e,
    format_analysis_results "https://github.com/org/repo"
      (PDict [("rbac_enabled",
               PDict [("answer", PBool true); ("confidence_level", PStr "high")]);
              ("notes", PStr "well documented")])
    = Raise e /\
    exn_class_of e = AttributeError.
Proof.
  apply (proj2 format_bare_string_raises "https://github.com/org/repo"%string
           [("rbac_enabled",
             PDict [("answer", PBool true); ("confidence_level", PStr "high")]);
            ("notes", PStr "well documented")]
           "notes" "well documented").
  - cbn. tauto.
  - reflexivity.
Defined.

Lemma confidence_cell_dict d key :
  (forall q, dict_lookup key d = Some q -> isinstance_dict q = true) ->
  exists c, confidence_cell (PDict d) key = Ok c /\
            (dict_lookup key d = None -> c = PStr "Unknown (low)").
Proof.
  intros Hq. unfold confidence_cell. cbn.
  destruct (dict_lookup key d) as [q |] eqn:E.
  - specialize (Hq q eq_refl). destruct q; try discriminate Hq. cbn.
    eexists. split; [reflexivity | discriminate].
  - cbn. eexists. split; reflexivity.
Qed.

Lemma answer_cell_dict d key default :
  (forall q, dict_lookup key d = Some q -> isinstance_dict q = true) ->
  exists c, answer_cell (PDict d) key default = Ok c /\
            (dict_lookup key d = None -> c = default).
Proof.
  intros Hq. unfold answer_cell. cbn.
  destruct (dict_lookup key d) as [q |] eqn:E.
  - specialize (Hq q eq_refl). destruct q; try discriminate Hq. cbn.
    eexists. split; [reflexivity | discriminate].
  - cbn. eexists. split; reflexivity.
Qed.

(** C2, as amended: on results whose question fields are all
    per-question objects, [format_analysis_results] returns a row with
    exactly the thirteen fixed columns, and a question the results lack
    shows its default: ["Unknown (low)"] in a column with confidence,
    ["Unknown"] in a differentiator column, the empty string under
    [Notes]. *)
Theorem format_row_defaults (url : string) (d : dict) :
  (forall key q, In key question_keys -> dict_lookup key d = Some q ->
                 isinstance_dict q = true) ->
  exists row,
    format_analysis_results url (PDict d) = Ok row /\
    dict_keys row = formatted_columns /\
    (forall key label r,
        In (key, (label, r)) catalogue -> dict_lookup key d = None ->
        dict_lookup label row = Some (default_cell r)).
Proof.
  intros Hd. unfold format_analysis_results.
  repeat match goal with
         | |- context [confidence_cell (PDict d) ?k] =>
             let c := fresh "c" in
             let Hc := fresh "Hc" in
             let Hn := fresh "Hn" in
             destruct (confidence_cell_dict d k) as (c & Hc & Hn);
             [intros q; apply Hd; cbn; tauto |];
             rewrite Hc; clear Hc
         | |- context [answer_cell (PDict d) ?k ?dflt] =>
             let c := fresh "c" in
             let Hc := fresh "Hc" in
             let Hn := fresh "Hn" in
             destruct (answer_cell_dict d k dflt) as (c & Hc & Hn);
             [intros q; apply Hd; cbn; tauto |];
             rewrite Hc; clear Hc
         end.
  cbn [bind ret Monad_outcome].
  eexists. split; [reflexivity |]. split; [reflexivity |].
  intros key label r Hin Hmiss. unfold catalogue in Hin. cbn [In] in Hin.
  repeat (destruct Hin as [Hin | Hin];
          [injection Hin as <- <- <-; cbn; f_equal; auto |]).
  contradiction.
Qed.

Lemma format_row_defaults_witness :
  exists row,
    format_analysis_results "https://github.com/org/repo"
      (PDict [("rbac_enabled",
               PDict [("answer", PStr "Yes"); ("confidence_level", PStr "high")])])
    = Ok row /\
    dict_lookup "RBAC Enabled?" row = Some (PStr "Yes (high)") /\
    dict_lookup "Chat History?" row = Some (PStr "Unknown (low)") /\
    dict_lookup "Differentiators from AskSage" row = Some (PStr "Unknown") /\
    dict_lookup "Notes" row = Some (PStr EmptyString).
Proof.
  destruct (format_row_defaults "https://github.com/org/repo"
              [("rbac_enabled",
                PDict [("answer", PStr "Yes"); ("confidence_level", PStr "high")])])
    as (row & Hrow & _ & Hdef).
  - intros key q _. cbn. destruct (String.eqb key "rbac_enabled"); [| discriminate].
    intros H. injection H as <-. reflexivity.
  - exists row. split; [exact Hrow |]. split.
    + cbn in Hrow. injection Hrow as <-. reflexivity.
    + split; [| split].
      * apply (Hdef "chat_history" _ WithConfidence); [cbn; tauto | reflexivity].
      * apply (Hdef "differentiators_from_asksage" _ (AnswerOnly "Unknown"));
          [cbn; tauto | reflexivity].
      * apply (Hdef "notes" _ (AnswerOnly EmptyString)); [cbn; tauto | reflexivity].
Defined.

(** C2 fails as stated: on empty results the [Notes] column is the empty
    string, not ["Unknown"], and a differentiator column carries no
    confidence. *)
Lemma format_missing_notes_not_Unknown :
  exists row,
    format_analysis_results "https://github.com/org/repo" (PDict []) = Ok row /\
    dict_lookup "Notes" row = Some (PStr EmptyString) /\
    dict_lookup "Notes" row <> Some (PStr "Unknown") /\
    dict_lookup "Notes" row <> Some (PStr "Unknown (low)") /\
    dict_lookup "Differentiators from AskSage" row <> Some (PStr "Unknown (low)").
Proof.
  eexists. split; [reflexivity |]. cbn. repeat split; discriminate.
Qed.

(** ** The batch loop *)

Lemma analyze_github_repository_run W url verbose out :
  analyze_github_repository W url verbose out =
  (fst (run (analyze_github_repository W url verbose)),
   (out ++ snd (run (analyze_github_repository W url verbose)))%list).
Proof. apply framed_analyze_github_repository. Qed.

(** One turn of the [for] loop. *)
Lemma analyze_loop_cons W url rest results out :
  analyze_loop W (url :: rest) results out =
  let out' := (out ++ banner url :: analysis_log W url)%list in
  match analysis_of W url with
  | Raise e => (Raise e, out')
  | Ok v =>
      if truthy v
      then match v with
           | PDict d =>
               analyze_loop W rest
                 (results ++ [dict_update [("Repository Name", PStr (repo_name url))] d])
                 out'
           | _ => (Raise (not_a_mapping v), out')
           end
      else analyze_loop W rest results out'
  end.
Proof.
  cbn [analyze_loop]. unfold analysis_of, analysis_log.
  cbn [bind Monad_py]. unfold print at 1.
  rewrite analyze_github_repository_run.
  rewrite <- app_assoc. cbn [app].
  destruct (fst (run (analyze_github_repository W url false))) as [v | e];
    [| reflexivity].
  cbn zeta. destruct (truthy v) eqn:Hv; [| reflexivity].
  unfold lift. rewrite derive_repo_name_total.
  destruct v; reflexivity.
Qed.

Lemma yields_row_eq W u v : analysis_of W u = Ok v -> yields_row W u = truthy v.
Proof. intros H. unfold yields_row. now rewrite H. Qed.

Lemma record_of_eq W u d :
  analysis_of W u = Ok (PDict d) ->
  record_of W u = dict_update [("Repository Name", PStr (repo_name u))] d.
Proof. intros H. unfold record_of. now rewrite H. Qed.

(** If the loop finishes, it has appended one record per URL whose
    analysis gave a non-empty dict, in input order. *)
Lemma analyze_loop_inv W urls :
  forall results out records log,
    analyze_loop W urls results out = (Ok records, log) ->
    records = (results ++ map (record_of W) (filter (yields_row W) urls))%list /\
    (forall u, In u (filter (yields_row W) urls) ->
               exists d, analysis_of W u = Ok (PDict d) /\ d <> []).
Proof.
  induction urls as [| url rest IH]; intros results out records log H.
  - cbn in H. injection H as <- _. cbn. rewrite app_nil_r. split; [reflexivity |].
    intros u [].
  - rewrite analyze_loop_cons in H. cbn zeta in H. cbn [filter].
    destruct (analysis_of W url) as [v | e] eqn:Ev; [| discriminate H].
    rewrite (yields_row_eq _ _ Ev).
    destruct (truthy v) eqn:Hv.
    + destruct v as [| | | | | | d]; try discriminate H.
      apply IH in H. destruct H as [-> Hin]. split.
      * cbn [map]. rewrite (record_of_eq _ _ Ev).
        now rewrite <- app_assoc.
      * intros u [<- | Hu]; [| now apply Hin].
        exists d. split; [assumption |]. now destruct d.
    + apply IH in H. exact H.
Qed.

(** If every analysis returns and no truthy result is a non-mapping, the
    loop finishes. *)
Lemma analyze_loop_ok W urls :
  forall results out,
    (forall u, In u urls ->
               exists v, analysis_of W u = Ok v /\
                         (truthy v = true -> isinstance_dict v = true)) ->
    exists log,
      analyze_loop W urls results out =
      (Ok (results ++ map (record_of W) (filter (yields_row W) urls))%list,
       (out ++ log)%list).
Proof.
  induction urls as [| url rest IH]; intros results out Hall.
  - exists []. cbn. now rewrite !app_nil_r.
  - rewrite analyze_loop_cons. cbn zeta. cbn [filter].
    destruct (Hall url (or_introl eq_refl)) as (v & Ev & Hv).
    rewrite Ev, (yields_row_eq _ _ Ev). destruct (truthy v) eqn:Ht.
    + specialize (Hv eq_refl). destruct v as [| | | | | | d]; try discriminate Hv.
      destruct (IH (results
                      ++ [dict_update [("Repository Name", PStr (repo_name url))] d])%list
                   (out ++ banner url :: analysis_log W url)%list) as (log & ->).
      { intros u Hu. apply Hall. now right. }
      exists (banner url :: analysis_log W url ++ log)%list.
      cbn [map]. rewrite (record_of_eq _ _ Ev).
      rewrite <- !app_assoc. reflexivity.
    + destruct (IH results (out ++ banner url :: analysis_log W url)%list)
        as (log & ->).
      { intros u Hu. apply Hall. now right. }
      exists (banner url :: analysis_log W url ++ log)%list.
      rewrite <- !app_assoc. reflexivity.
Qed.

(** *** The frame built from the records *)

Lemma dict_update_head k v other :
  forall base, exists v' rest, dict_update ((k, v) :: base) other = (k, v') :: rest.
Proof.
  unfold dict_update. revert v.
  induction other as [| [k1 v1] other IH]; intros v base; cbn.
  - now exists v, base.
  - destruct (String.eqb_spec k1 k) as [-> | _]; apply IH.
Qed.

Lemma add_unseen_head h t ks :
  exists t', add_unseen (h :: t) ks = h :: t'.
Proof.
  unfold add_unseen. revert t.
  induction ks as [| k ks IH]; intros t; cbn [fold_left].
  - now exists t.
  - destruct (mem_str k (h :: t)); [apply IH |]. cbn [app]. apply IH.
Qed.

Lemma union_keys_head_from acc h t records :
  acc = h :: t ->
  exists t', fold_left (fun acc d => add_unseen acc (dict_keys d)) records acc = h :: t'.
Proof.
  revert acc t. induction records as [| d records IH]; intros acc t ->; cbn.
  - now exists t.
  - destruct (add_unseen_head h t (dict_keys d)) as (t' & E).
    now apply (IH _ t').
Qed.

Lemma union_keys_head k v rest records :
  exists cols, union_keys (((k, v) :: rest) :: records) = k :: cols.
Proof.
  unfold union_keys. cbn [fold_left dict_keys map fst].
  assert (E : exists t, add_unseen [] (k :: map fst rest) = k :: t).
  { unfold add_unseen. cbn [fold_left mem_str app]. apply add_unseen_head. }
  destruct E as (t & E). now apply union_keys_head_from with t.
Qed.


Lemma set_index_records records :
  records <> [] -> Forall named records ->
  set_index "Repository Name" (DataFrame_of_records records)
  = Ok (batch_frame records).
Proof.
  intros Hne Hall. destruct records as [| r records]; [now elim Hne |].
  assert (Hcols : exists cols, union_keys (r :: records) = "Repository Name" :: cols).
  { inversion Hall as [| ? ? (v & rest & ->) _]; subst. apply union_keys_head. }
  destruct Hcols as (cols & Hcols).
  unfold set_index, DataFrame_of_records, batch_frame.
  cbn [df_columns df_data]. rewrite Hcols.
  change (position "Repository Name" ("Repository Name" :: cols)) with (Some 0).
  cbn [tl]. f_equal. f_equal.
  - rewrite map_map. reflexivity.
  - rewrite map_map. reflexivity.
Qed.

Lemma batch_records_named W urls :
  (forall u, In u (filter (yields_row W) urls) ->
             exists d, analysis_of W u = Ok (PDict d) /\ d <> []) ->
  Forall named (batch_records W urls).
Proof.
  intros H. unfold batch_records. apply Forall_forall. intros r Hr.
  apply in_map_iff in Hr. destruct Hr as (u & <- & Hu).
  destruct (H u Hu) as (d & Hd & _). rewrite (record_of_eq _ _ Hd).
  apply dict_update_head.
Qed.

(** What a batch run returns, when it returns. *)
Lemma analyze_multiple_repositories_inv W urls out r log :
  analyze_multiple_repositories W urls out = (Ok r, log) ->
  (forall u, In u (filter (yields_row W) urls) ->
             exists d, analysis_of W u = Ok (PDict d) /\ d <> []) /\
  (batch_records W urls = [] /\ r = None \/
   batch_records W urls <> [] /\ r = Some (batch_frame (batch_records W urls))).
Proof.
  unfold analyze_multiple_repositories. cbn [bind Monad_py].
  destruct (analyze_loop W urls [] out) as [[records | e] log'] eqn:E;
    [| discriminate].
  apply analyze_loop_inv in E. destruct E as [-> Hin]. cbn [app].
  fold (batch_records W urls). intros H. split; [exact Hin |].
  destruct (batch_records W urls) as [| r0 rs] eqn:Er.
  - left. cbn in H. injection H as <- _. now split.
  - right. split; [discriminate |].
    unfold lift in H. rewrite set_index_records in H.
    + destruct (to_csv W (batch_frame (r0 :: rs)) comparison_csv true);
        [| discriminate H].
      cbn in H. now injection H as <- _.
    + discriminate.
    + rewrite <- Er. now apply batch_records_named.
Qed.

(** What a batch run returns when every analysis returns [None] or a
    dict and the file can be written. *)
Lemma analyze_multiple_repositories_ok W urls out :
  (forall u, In u urls ->
             exists v, analysis_of W u = Ok v /\
                       (truthy v = true -> isinstance_dict v = true)) ->
  (forall df, to_csv W df comparison_csv true = Ok tt) ->
  exists log,
    analyze_multiple_repositories W urls out =
    (Ok (match batch_records W urls with
         | [] => None
         | records => Some (batch_frame records)
         end),
     (out ++ log ++
        [match batch_records W urls with
         | [] => "No valid analysis results"
         | records => saved_line (length records)
         end])%list).
Proof.
  intros Hall Hcsv. unfold analyze_multiple_repositories. cbn [bind Monad_py].
  destruct (analyze_loop_ok W urls [] out Hall) as (log & E). rewrite E.
  cbn [app]. fold (batch_records W urls). exists log.
  assert (Hnamed : Forall named (batch_records W urls)).
  { apply batch_records_named. intros u Hu. apply filter_In in Hu.
    destruct Hu as [Hu Hy]. destruct (Hall u Hu) as (v & Ev & Hv).
    rewrite (yields_row_eq _ _ Ev) in Hy. specialize (Hv Hy).
    destruct v as [| | | | | | d]; try discriminate Hv.
    exists d. split; [assumption |]. now destruct d. }
  destruct (batch_records W urls) as [| r0 rs] eqn:Er.
  - cbn. now rewrite <- app_assoc.
  - unfold lift. rewrite set_index_records; [| discriminate | assumption].
    rewrite Hcsv. unfold print, saved_line. cbn. now rewrite <- app_assoc.
Qed.

(** ** The single-repository orchestrator *)

Lemma analyze_fetch_failure W url verbose e out :
  GitHubRepoAnalyzer_init W = Ok tt ->
  AzureOpenAIAnalyzer_init W = Ok tt ->
  is_Exception e = true ->
  extract_repo_info W url = Raise e ->
  analyze_github_repository W url verbose out =
  (Ok PNone,
   (out ++ [start_line url; fetch_line; fetch_error_line e])%list).
Proof.
  intros Hg Ha He Hx. unfold analyze_github_repository.
  cbn [bind Monad_py]. unfold print, lift, try_except. cbn [bind Monad_py].
  rewrite Hg, Ha, Hx, He. cbn. now rewrite <- !app_assoc.
Qed.

Lemma analyze_extraction_failure W url verbose e out repo_data :
  GitHubRepoAnalyzer_init W = Ok tt ->
  AzureOpenAIAnalyzer_init W = Ok tt ->
  is_Exception e = true ->
  extract_repo_info W url = Ok repo_data ->
  (verbose = true -> raises (json_dumps W repo_data) = false) ->
  analyze_repo W repo_data = Raise e ->
  exists dumped,
    analyze_github_repository W url verbose out =
    (Ok PNone,
     (out ++ [start_line url; fetch_line] ++ dumped
          ++ [completion_line; completion_error_line e])%list).
Proof.
  intros Hg Ha He Hx Hj Hr. unfold analyze_github_repository.
  cbn [bind Monad_py]. unfold print, lift, try_except. cbn [bind Monad_py].
  rewrite Hg, Ha, Hx. destruct verbose.
  - specialize (Hj eq_refl). destruct (json_dumps W repo_data) as [s | e'];
      [| discriminate Hj].
    exists ["Repository information: " ++ nl ++ " " ++ s].
    cbn. rewrite Hr, He. cbn. now rewrite <- !app_assoc.
  - exists []. cbn. rewrite Hr, He. cbn. now rewrite <- !app_assoc.
Qed.

Lemma analyze_loop_skips W url rest results out :
  analysis_of W url = Ok PNone ->
  analyze_loop W (url :: rest) results out =
  analyze_loop W rest results (out ++ banner url :: analysis_log W url)%list.
Proof. intros H. rewrite analyze_loop_cons, H. reflexivity. Qed.

(** C4: when the fetch stage or the extraction stage raises an error, the
    single-repository orchestrator prints the error message and returns
    [None] instead of raising; and the batch loop then goes on with the
    remaining URLs, its results untouched. *)
Theorem failed_stage_returns_None (W : World) (url : string) (e : exn) :
  GitHubRepoAnalyzer_init W = Ok tt ->
  AzureOpenAIAnalyzer_init W = Ok tt ->
  is_Exception e = true ->
  (forall verbose out,
      extract_repo_info W url = Raise e ->
      analyze_github_repository W url verbose out =
      (Ok PNone,
       (out ++ [start_line url; fetch_line; fetch_error_line e])%list)) /\
  (forall verbose out repo_data,
      extract_repo_info W url = Ok repo_data ->
      (verbose = true -> raises (json_dumps W repo_data) = false) ->
      analyze_repo W repo_data = Raise e ->
      exists dumped,
        analyze_github_repository W url verbose out =
        (Ok PNone,
         (out ++ [start_line url; fetch_line] ++ dumped
              ++ [completion_line; completion_error_line e])%list)) /\
  (extract_repo_info W url = Raise e \/
   (exists repo_data, extract_repo_info W url = Ok repo_data /\
                      analyze_repo W repo_data = Raise e) ->
   forall rest results out,
     analyze_loop W (url :: rest) results out =
     analyze_loop W rest results (out ++ banner url :: analysis_log W url)%list).
Proof.
  intros Hg Ha He. split; [| split].
  - intros verbose out Hx. now apply analyze_fetch_failure.
  - intros verbose out repo_data Hx Hj Hr.
    now apply analyze_extraction_failure with repo_data.
  - intros Hfail rest results out. apply analyze_loop_skips.
    unfold analysis_of, run. destruct Hfail as [Hx | (repo_data & Hx & Hr)].
    + rewrite analyze_fetch_failure with (e := e); auto.
    + destruct (@analyze_extraction_failure W url false e [] repo_data)
        as (dumped & ->); auto. discriminate.
Qed.

Lemma failed_stage_returns_None_witness :
  run (analyze_github_repository sample_world sample_url_B true) =
  (Ok PNone,
   [ "Analyzing repository: https://github.com/org/B";
     "Extracting repository information...";
     "Error extracting repository data: 404 Not Found" ]).
Proof.
  exact (proj1 (failed_stage_returns_None sample_world sample_url_B
                  (mkExn (OtherException "FetchError") "404 Not Found")
                  eq_refl eq_refl eq_refl)
               true [] eq_refl).
Defined.

(** ** The batch orchestrator *)

Lemma index_cell_repo_name W u d :
  analysis_of W u = Ok (PDict d) ->
  dict_lookup "Repository Name" d = None ->
  index_cell W u = PStr (repo_name u).
Proof.
  intros Hd Hn. unfold index_cell. rewrite (record_of_eq _ _ Hd).
  unfold dict_update, cell_of.
  assert (G : forall base,
             dict_lookup "Repository Name" base = Some (PStr (repo_name u)) ->
             dict_lookup "Repository Name"
               (fold_left (fun acc kv => dict_set (fst kv) (snd kv) acc) d base)
             = Some (PStr (repo_name u))).
  { clear Hd. induction d as [| [k v] d IH]; intros base Hb; [exact Hb |].
    cbn [fold_left fst snd]. cbn [dict_lookup] in Hn.
    destruct (String.eqb_spec "Repository Name" k) as [-> | Hk]; [discriminate |].
    apply IH; [assumption |].
    clear IH Hn. induction base as [| [k' v'] base IHb]; [discriminate Hb |].
    cbn [dict_set]. destruct (String.eqb_spec k k') as [-> | Hkk'].
    - cbn [dict_lookup] in *.
      destruct (String.eqb_spec "Repository Name" k') as [E | _];
        [now elim Hk | assumption].
    - cbn [dict_lookup] in *.
      destruct (String.eqb_spec "Repository Name" k'); [assumption | now apply IHb]. }
  now rewrite G.
Qed.

Lemma dict_lookup_None k d : dict_lookup k d = None <-> ~ In k (dict_keys d).
Proof.
  induction d as [| [k' v'] d IH]; cbn; [tauto |].
  destruct (String.eqb_spec k k') as [-> | Hk].
  - split; [discriminate | intros H; elim H; now left].
  - rewrite IH. split; [intros H [E | E]; [now elim Hk | now elim H] | tauto].
Qed.

Lemma mem_str_In k l : mem_str k l = true <-> In k l.
Proof.
  induction l as [| k' l IH]; cbn; [split; [discriminate | tauto] |].
  rewrite orb_true_iff, IH.
  destruct (String.eqb_spec k k') as [-> | Hk]; split; intros H; auto.
  - destruct H as [H | H]; [discriminate | now right].
  - destruct H as [H | H]; [now elim Hk | now right].
Qed.

Lemma dict_set_keys k k1 v1 d :
  In k (dict_keys (dict_set k1 v1 d)) <-> k = k1 \/ In k (dict_keys d).
Proof.
  induction d as [| [k' v'] d IH]; cbn.
  - intuition.
  - destruct (String.eqb_spec k1 k') as [-> | Hk1]; cbn.
    + intuition.
    + rewrite IH. intuition.
Qed.

Lemma dict_update_keys k d :
  forall base,
    In k (dict_keys (dict_update base d)) <->
    In k (dict_keys base) \/ In k (dict_keys d).
Proof.
  unfold dict_update.
  induction d as [| [k1 v1] d IH]; intros base; cbn [fold_left fst snd].
  - cbn. tauto.
  - rewrite IH, dict_set_keys. cbn. intuition.
Qed.


(** *** Columns in order of first appearance *)

Lemma filter_comm {A} (p q : A -> bool) (l : list A) :
  filter p (filter q l) = filter q (filter p l).
Proof.
  induction l as [| x l IH]; cbn; [reflexivity |].
  destruct (q x) eqn:Eq, (p x) eqn:Ep; cbn; rewrite ?Eq, ?Ep, IH; reflexivity.
Qed.

Lemma filter_and {A} (p q : A -> bool) (l : list A) :
  filter p (filter q l) = filter (fun x => q x && p x) l.
Proof.
  induction l as [| x l IH]; cbn; [reflexivity |].
  destruct (q x); cbn; [destruct (p x) |]; now rewrite IH.
Qed.

Lemma filter_other_than_absorbed (p : string -> bool) k l :
  p k = false -> filter p (other_than k l) = filter p l.
Proof.
  intros Hk. unfold other_than. induction l as [| x l IH]; cbn; [reflexivity |].
  destruct (String.eqb_spec x k) as [-> | Hx]; cbn.
  - now rewrite Hk, IH.
  - now rewrite IH.
Qed.

Lemma first_occurrences_filter (p : string -> bool) l :
  first_occurrences (filter p l) = filter p (first_occurrences l).
Proof.
  induction l as [| k l IH]; cbn; [reflexivity |].
  destruct (p k) eqn:Ek; cbn; rewrite ?Ek.
  - now rewrite IH, filter_comm.
  - rewrite IH. symmetry. now apply filter_other_than_absorbed.
Qed.

Lemma first_occurrences_idem l :
  first_occurrences (first_occurrences l) = first_occurrences l.
Proof.
  induction l as [| k l IH]; cbn; [reflexivity |].
  rewrite first_occurrences_filter, IH. f_equal.
  rewrite filter_and. apply filter_ext. intros x. now destruct (String.eqb x k).
Qed.

Lemma mem_str_app k l1 l2 : mem_str k (l1 ++ l2) = mem_str k l1 || mem_str k l2.
Proof.
  induction l1 as [| x l1 IH]; cbn; [reflexivity |].
  now rewrite IH, orb_assoc.
Qed.

(** [add_unseen] appends the first occurrences of the labels it has not
    seen. *)
Lemma add_unseen_first_occurrences ks :
  forall acc,
    add_unseen acc ks
    = (acc ++ first_occurrences (filter (fun k => negb (mem_str k acc)) ks))%list.
Proof.
  unfold add_unseen.
  induction ks as [| k ks IH]; intros acc; cbn [fold_left filter].
  - now rewrite app_nil_r.
  - destruct (mem_str k acc) eqn:Hm; cbn [negb]; [apply IH |].
    rewrite IH, <- app_assoc. cbn [app first_occurrences]. f_equal. f_equal.
    rewrite <- first_occurrences_filter, filter_and. f_equal.
    apply filter_ext. intros x. rewrite mem_str_app. cbn.
    rewrite orb_false_r, negb_orb. reflexivity.
Qed.

Lemma add_unseen_app acc ks1 ks2 :
  add_unseen acc (ks1 ++ ks2) = add_unseen (add_unseen acc ks1) ks2.
Proof. unfold add_unseen. apply fold_left_app. Qed.

Lemma add_unseen_keeps acc ks k :
  mem_str k acc = true -> mem_str k (add_unseen acc ks) = true.
Proof.
  intros H. rewrite add_unseen_first_occurrences, mem_str_app, H. reflexivity.
Qed.

(** Adding labels already reduced to their first occurrences is adding
    the labels themselves. *)
Lemma add_unseen_absorb acc acc' ks :
  add_unseen acc (add_unseen acc' ks) = add_unseen acc (acc' ++ ks).
Proof.
  rewrite (add_unseen_first_occurrences ks acc'), !add_unseen_app.
  set (B := add_unseen acc acc').
  assert (HB : forall x, mem_str x acc' = true -> mem_str x B = true).
  { intros x Hx. unfold B. rewrite add_unseen_first_occurrences, mem_str_app.
    destruct (mem_str x acc) eqn:Ea; [reflexivity |]. cbn.
    apply mem_str_In. clear B.
    induction acc' as [| y acc' IHa]; [discriminate Hx |].
    cbn in Hx. cbn [filter].
    destruct (String.eqb_spec x y) as [<- | Hxy].
    - rewrite Ea. cbn. now left.
    - cbn in Hx. specialize (IHa Hx).
      destruct (mem_str y acc); cbn [negb]; [exact IHa |].
      cbn [first_occurrences]. right. apply filter_In. split; [exact IHa |].
      destruct (String.eqb_spec x y); [contradiction | reflexivity]. }
  rewrite !(add_unseen_first_occurrences _ B). f_equal.
  rewrite <- first_occurrences_filter, first_occurrences_idem. f_equal.
  rewrite filter_and. apply filter_ext. intros x.
  destruct (mem_str x acc') eqn:Ex; cbn; [| reflexivity].
  now rewrite (HB x Ex).
Qed.

Lemma union_keys_add_unseen records :
  forall acc,
    fold_left (fun acc d => add_unseen acc (dict_keys d)) records acc
    = add_unseen acc (flat_map dict_keys records).
Proof.
  induction records as [| d records IH]; intros acc; cbn [fold_left flat_map].
  - reflexivity.
  - now rewrite IH, add_unseen_app.
Qed.

Lemma dict_set_keys_eq k v d :
  dict_keys (dict_set k v d)
  = if mem_str k (dict_keys d) then dict_keys d else (dict_keys d ++ [k])%list.
Proof.
  induction d as [| [k' v'] d IH]; cbn; [reflexivity |].
  destruct (String.eqb_spec k k') as [-> | Hk]; cbn; [reflexivity |].
  unfold dict_keys in IH. rewrite IH. now destruct (mem_str k (map fst d)).
Qed.

Lemma dict_update_keys_eq d :
  forall base,
    dict_keys (dict_update base d) = add_unseen (dict_keys base) (dict_keys d).
Proof.
  unfold dict_update, add_unseen.
  induction d as [| [k v] d IH]; intros base; cbn [fold_left fst snd dict_keys map].
  - reflexivity.
  - unfold dict_keys in *. rewrite IH. f_equal. apply dict_set_keys_eq.
Qed.

Lemma other_than_flat_map_cons k (f : string -> list string) rows :
  other_than k (flat_map (fun u => k :: f u) rows) = other_than k (flat_map f rows).
Proof.
  unfold other_than. induction rows as [| u rows IH]; cbn [flat_map]; [reflexivity |].
  change ((k :: f u) ++ flat_map (fun u0 => k :: f u0) rows)%list
    with (k :: (f u ++ flat_map (fun u0 => k :: f u0) rows))%list.
  cbn [filter]. rewrite String.eqb_refl. cbn [negb].
  now rewrite !filter_app, IH.
Qed.

Lemma add_unseen_records acc (f : string -> list string) k rows :
  add_unseen acc (flat_map (fun u => add_unseen [k] (f u)) rows)
  = add_unseen acc (flat_map (fun u => k :: f u) rows).
Proof.
  revert acc. induction rows as [| u rows IH]; intros acc; [reflexivity |].
  cbn [flat_map]. rewrite !add_unseen_app, add_unseen_absorb. apply IH.
Qed.

Lemma filter_all {A} (l : list A) : filter (fun _ => true) l = l.
Proof. induction l as [| x l IH]; cbn; [reflexivity | now rewrite IH]. Qed.

(** The keys of the records of a batch, in order of first appearance:
    the repository name, then the keys of the responses. *)
Lemma union_keys_batch_records W urls :
  (forall u, In u (filter (yields_row W) urls) ->
             exists d, analysis_of W u = Ok (PDict d) /\ d <> []) ->
  batch_records W urls <> [] ->
  union_keys (batch_records W urls)
  = "Repository Name"
      :: other_than "Repository Name"
           (first_occurrences
              (flat_map (fun u => dict_keys (response W u))
                        (filter (yields_row W) urls))).
Proof.
  intros Hin Hne. unfold union_keys, batch_records in *.
  rewrite union_keys_add_unseen, flat_map_concat_map, map_map.
  rewrite (map_ext_in _ (fun u => add_unseen ["Repository Name"]
                                    (dict_keys (response W u)))).
  2:{ intros u Hu. destruct (Hin u Hu) as (d & Hd & _).
      rewrite (record_of_eq _ _ Hd), dict_update_keys_eq.
      unfold response. now rewrite Hd. }
  rewrite <- flat_map_concat_map, add_unseen_records.
  rewrite add_unseen_first_occurrences. cbn [app mem_str negb].
  rewrite filter_all.
  destruct (filter (yields_row W) urls) as [| u rows]; [now elim Hne |].
  cbn [flat_map].
  change (("Repository Name" :: dict_keys (response W u))
            ++ flat_map (fun u0 => "Repository Name" :: dict_keys (response W u0)) rows)%list
    with ("Repository Name"
            :: (dict_keys (response W u)
                  ++ flat_map (fun u0 => "Repository Name" :: dict_keys (response W u0))
                       rows))%list.
  cbn [first_occurrences]. f_equal.
  fold (other_than "Repository Name"
          (first_occurrences
             (dict_keys (response W u)
                ++ flat_map (fun u0 => "Repository Name" :: dict_keys (response W u0))
                     rows)%list)).
  unfold other_than. rewrite <- !first_occurrences_filter. f_equal.
  rewrite !filter_app. f_equal.
  apply (other_than_flat_map_cons "Repository Name"
           (fun u0 => dict_keys (response W u0))).
Qed.

Lemma Forall2_map_same {A B} (R : A -> B -> Prop) (f : A -> B) (l : list A) :
  (forall x, In x l -> R x (f x)) -> Forall2 R l (map f l).
Proof.
  induction l as [| x l IH]; intros H; cbn; constructor.
  - apply H. now left.
  - apply IH. intros y Hy. apply H. now right.
Qed.

Lemma dict_set_lookup k k1 v1 d :
  dict_lookup k (dict_set k1 v1 d)
  = if String.eqb k k1 then Some v1 else dict_lookup k d.
Proof.
  induction d as [| [k' v'] d IH]; cbn.
  - reflexivity.
  - destruct (String.eqb_spec k1 k') as [-> | Hk1]; cbn.
    + destruct (String.eqb k k'); reflexivity.
    + destruct (String.eqb_spec k k') as [-> | Hk].
      * destruct (String.eqb_spec k' k1) as [<- | _]; [now elim Hk1 | reflexivity].
      * exact IH.
Qed.

(** [{**base, **d}]: the values of [d] win. *)
Lemma dict_update_lookup k d :
  NoDup (dict_keys d) ->
  forall base,
    dict_lookup k (dict_update base d)
    = match dict_lookup k d with
      | Some v => Some v
      | None => dict_lookup k base
      end.
Proof.
  unfold dict_update.
  induction d as [| [k1 v1] d IH]; intros Hnd base; [reflexivity |].
  cbn [dict_keys map fst] in Hnd. inversion Hnd as [| ? ? Hnotin Hnd']; subst.
  cbn [fold_left fst snd dict_lookup]. rewrite (IH Hnd'), dict_set_lookup.
  destruct (String.eqb_spec k k1) as [-> | _]; [| reflexivity].
  apply dict_lookup_None in Hnotin. now rewrite Hnotin.
Qed.

(** The cells of a batch frame against the responses they come from. *)
Lemma batch_frame_cells W urls :
  (forall u, In u (filter (yields_row W) urls) ->
             exists d, analysis_of W u = Ok (PDict d) /\ d <> []) ->
  batch_records W urls <> [] ->
  let df := batch_frame (batch_records W urls) in
  Forall2 (fun u row =>
             NoDup (dict_keys (response W u)) ->
             Forall2 (cell_agrees (response W u)) (df_columns df) row)
          (filter (yields_row W) urls) (df_data df).
Proof.
  intros Hin Hne. cbn zeta.
  pose proof (union_keys_batch_records W urls Hin Hne) as Hcols.
  cbn [batch_frame df_data df_columns]. rewrite Hcols. cbn [tl].
  unfold batch_records. rewrite map_map.
  apply Forall2_map_same. intros u Hu Hnd.
  apply Forall2_map_same. intros k Hk.
  destruct (Hin u Hu) as (d & Hd & _).
  assert (Hkne : String.eqb k "Repository Name" = false).
  { unfold other_than in Hk. apply filter_In in Hk. destruct Hk as [_ Hk].
    now destruct (String.eqb k "Repository Name"). }
  unfold cell_agrees, cell_of. rewrite (record_of_eq _ _ Hd).
  unfold response in *. rewrite Hd in *.
  rewrite (@dict_update_lookup k d Hnd). cbn [dict_lookup]. rewrite Hkne.
  now destruct (dict_lookup k d).
Qed.

Lemma record_lacks_key W u d k :
  analysis_of W u = Ok (PDict d) ->
  k <> "Repository Name" ->
  dict_lookup k d = None ->
  dict_lookup k (record_of W u) = None.
Proof.
  intros Hd Hk Hnone. rewrite (record_of_eq _ _ Hd).
  apply dict_lookup_None. intros Hin. apply dict_update_keys in Hin.
  destruct Hin as [[E | []] | Hin]; [now elim Hk |].
  now apply dict_lookup_None in Hnone.
Qed.

(** C3: the table a batch run returns has one row per URL whose analysis
    gave a result, and no other, in the order of the input list; on
    [[A, B, C]] where the analysis of [B] fails and those of [A] and [C]
    succeed, the table has exactly the two rows of [A] and [C], in that
    order.  The rows are identified by the index, which holds the derived
    names when no response has a key ["Repository Name"] of its own, and
    by their cells: NaN where the response lacks the column, the
    response's value where that is text, a list or a dict. *)
Theorem batch_rows_follow_input_order (W : World) :
  (forall urls out df log,
      analyze_multiple_repositories W urls out = (Ok (Some df), log) ->
      let rows := filter (yields_row W) urls in
      (forall u, In u rows -> exists d, analysis_of W u = Ok (PDict d) /\ d <> []) /\
      length (df_data df) = length rows /\
      length (df_index df) = length rows /\
      ((forall u, In u rows ->
                  dict_lookup "Repository Name" (response W u) = None) ->
       df_index df = map (fun u => PStr (repo_name u)) rows) /\
      Forall2 (fun u row =>
                 NoDup (dict_keys (response W u)) ->
                 Forall2 (cell_agrees (response W u)) (df_columns df) row)
              rows (df_data df)) /\
  (forall A B C ra rc out,
      analysis_of W A = Ok (PDict ra) -> ra <> [] ->
      analysis_of W B = Ok PNone ->
      analysis_of W C = Ok (PDict rc) -> rc <> [] ->
      (forall df, to_csv W df comparison_csv true = Ok tt) ->
      exists df log,
        analyze_multiple_repositories W [A; B; C] out = (Ok (Some df), log) /\
        length (df_data df) = 2 /\
        length (df_index df) = 2 /\
        (dict_lookup "Repository Name" ra = None ->
         dict_lookup "Repository Name" rc = None ->
         df_index df = [PStr (repo_name A); PStr (repo_name C)])).
Proof.
  split.
  - intros urls out df log H rows.
    apply analyze_multiple_repositories_inv in H.
    destruct H as [Hin [[_ H] | [Hne H]]]; [discriminate H |].
    injection H as ->. split; [exact Hin |].
    split; [| split; [| split]].
    + unfold batch_frame, batch_records. cbn [df_data]. now rewrite !length_map.
    + unfold batch_frame, batch_records. cbn [df_index]. now rewrite !length_map.
    + intros Hplain. unfold batch_frame, batch_records. cbn [df_index].
      rewrite map_map. apply map_ext_in. intros u Hu.
      destruct (Hin u Hu) as (d & Hd & _). fold (index_cell W u).
      apply (index_cell_repo_name _ _ Hd).
      specialize (Hplain u Hu). unfold response in Hplain. now rewrite Hd in Hplain.
    + now apply batch_frame_cells.
  - intros A B C ra rc out HA Hra HB HC Hrc Hcsv.
    destruct (analyze_multiple_repositories_ok W [A; B; C] out) as (log & E);
      [| exact Hcsv |].
    { intros u [<- | [<- | [<- | []]]]; eexists; (split; [eassumption |]);
        cbn; auto. }
    assert (Hrows : filter (yields_row W) [A; B; C] = [A; C]).
    { cbn [filter]. rewrite (yields_row_eq _ _ HA), (yields_row_eq _ _ HB),
        (yields_row_eq _ _ HC). destruct ra; [now elim Hra |].
      destruct rc; [now elim Hrc |]. reflexivity. }
    unfold batch_records in E. rewrite Hrows in E. cbn [map] in E.
    eexists. eexists. split; [exact E |].
    cbn [batch_frame df_data df_index map length].
    split; [reflexivity |]. split; [reflexivity |].
    intros Hna Hnc. fold (index_cell W A) (index_cell W C).
    now rewrite (index_cell_repo_name _ _ HA Hna), (index_cell_repo_name _ _ HC Hnc).
Qed.

Lemma sample_run :
  analyze_multiple_repositories sample_world sample_urls []
  = (Ok (Some sample_table), sample_log).
Proof. vm_compute. reflexivity. Qed.

Lemma batch_rows_follow_input_order_witness :
  exists df log,
    analyze_multiple_repositories sample_world
      [sample_url_A; sample_url_B; sample_url_C] [] = (Ok (Some df), log) /\
    length (df_data df) = 2 /\
    df_index df = [PStr "A"; PStr "C"].
Proof.
  destruct (proj2 (batch_rows_follow_input_order sample_world)
              sample_url_A sample_url_B sample_url_C
              sample_answers_A sample_answers_C [])
    as (df & log & Hrun & Hlen & _ & Hidx);
    [ vm_compute; reflexivity | discriminate | vm_compute; reflexivity
    | vm_compute; reflexivity | discriminate | reflexivity |].
  exists df, log. split; [exact Hrun |]. split; [exact Hlen |].
  apply Hidx; vm_compute; reflexivity.
Defined.

(** Results outside the analysis-result shape: an empty dict is dropped by
    the test [if result:], and a text result stops the run at the dict
    display. *)
Example unshaped_results_in_a_batch :
  fst (run (analyze_multiple_repositories unshaped_world [EmptyString]))
  = Ok None /\
  fst (run (analyze_multiple_repositories unshaped_world [sample_url_A]))
  = Raise (not_a_mapping (PStr "{}")).
Proof. split; vm_compute; reflexivity. Qed.

(** C5, as amended: on an empty URL list, and whenever every analysis
    returned [None], the batch orchestrator prints
    [No valid analysis results] and returns [None] (no table) instead of
    raising. *)
Theorem no_results_returns_None (W : World) :
  (forall out,
      analyze_multiple_repositories W [] out =
      (Ok None, (out ++ ["No valid analysis results"])%list)) /\
  (forall urls out,
      (forall u, In u urls -> analysis_of W u = Ok PNone) ->
      exists log,
        analyze_multiple_repositories W urls out =
        (Ok None, (out ++ log ++ ["No valid analysis results"])%list)).
Proof.
  split; [reflexivity |].
  intros urls out Hall. unfold analyze_multiple_repositories. cbn [bind Monad_py].
  destruct (analyze_loop_ok W urls [] out) as (log & ->).
  { intros u Hu. exists PNone. split; [now apply Hall | discriminate]. }
  assert (Hrows : filter (yields_row W) urls = []).
  { clear out log. induction urls as [| u urls IH]; [reflexivity |].
    cbn [filter]. rewrite (yields_row_eq _ _ (Hall u (or_introl eq_refl))).
    cbn. apply IH. intros u' Hu'. apply Hall. now right. }
  rewrite Hrows. cbn. exists log. now rewrite <- app_assoc.
Qed.

Lemma no_results_returns_None_witness :
  exists log,
    analyze_multiple_repositories sample_world [sample_url_B; sample_url_B] [] =
    (Ok None, (log ++ ["No valid analysis results"])%list).
Proof.
  destruct (proj2 (no_results_returns_None sample_world)
              [sample_url_B; sample_url_B] []) as (log & H).
  - intros u [<- | [<- | []]]; vm_compute; reflexivity.
  - exists log. exact H.
Defined.

(** C5 fails as stated: what comes back for an empty list is [None], not
    a table, empty or otherwise. *)
Lemma empty_batch_returns_no_table :
  fst (run (analyze_multiple_repositories sample_world [])) = Ok None /\
  ~ (exists df, fst (run (analyze_multiple_repositories sample_world []))
                = Ok (Some df) /\ df_data df = []).
Proof.
  assert (E : fst (run (analyze_multiple_repositories sample_world [])) = Ok None)
    by (vm_compute; reflexivity).
  split; [exact E |]. intros (df & H & _). rewrite E in H. discriminate H.
Qed.

(** C9, as amended: all rows of a comparison table have the same
    columns, the repository name being the index and the columns being
    the keys the completion responses contained, in order of first
    appearance (a key a response lacks gives a NaN cell); the fixed
    columns, repository first and then one per question in catalogue
    order, are those of the row [format_analysis_results] returns,
    whatever keys the response contained. *)
Theorem table_columns (W : World) :
  (forall urls out df log,
      analyze_multiple_repositories W urls out = (Ok (Some df), log) ->
      let rows := filter (yields_row W) urls in
      df_index_name df = Some "Repository Name" /\
      "Repository Name" :: df_columns df = union_keys (batch_records W urls) /\
      Forall (fun row => length row = length (df_columns df)) (df_data df) /\
      df_columns df
      = other_than "Repository Name"
          (first_occurrences (flat_map (fun u => dict_keys (response W u)) rows)) /\
      Forall2 (fun u row =>
                 Forall2 (fun k cell =>
                            dict_lookup k (response W u) = None -> cell = NaN)
                         (df_columns df) row)
              rows (df_data df)) /\
  (forall url results row,
      format_analysis_results url results = Ok row ->
      dict_keys row = formatted_columns /\
      dict_keys row
      = "Repository URL" :: map (fun entry => fst (snd entry)) catalogue /\
      map fst catalogue = question_keys).
Proof.
  split.
  - intros urls out df log H rows.
    apply analyze_multiple_repositories_inv in H.
    destruct H as [Hin [[_ H] | [Hne H]]]; [discriminate H |].
    injection H as ->. split; [reflexivity |].
    pose proof (union_keys_batch_records W urls Hin Hne) as Hcols.
    cbn [batch_frame df_columns df_data]. rewrite Hcols. cbn [tl].
    split; [reflexivity |]. split; [| split; [reflexivity |]].
    + apply Forall_forall. intros row Hrow. apply in_map_iff in Hrow.
      destruct Hrow as (d & <- & _). apply length_map.
    + unfold batch_records. rewrite map_map.
      apply Forall2_map_same. intros u Hu.
      apply Forall2_map_same. intros k Hk Hnone.
      destruct (Hin u Hu) as (d & Hd & _).
      unfold response in Hnone. rewrite Hd in Hnone.
      unfold cell_of. rewrite (@record_lacks_key W u d k Hd); [reflexivity | | exact Hnone].
      intros ->. unfold other_than in Hk. apply filter_In in Hk.
      destruct Hk as [_ Hk]. cbn in Hk. discriminate Hk.
  - intros url results row H. apply format_columns in H.
    rewrite H. repeat split; reflexivity.
Qed.

Lemma table_columns_witness :
  df_index_name sample_table = Some "Repository Name" /\
  Forall (fun row => length row = length (df_columns sample_table))
         (df_data sample_table) /\
  df_columns sample_table
  = other_than "Repository Name"
      (first_occurrences
         (flat_map (fun u => dict_keys (response sample_world u))
                   (filter (yields_row sample_world) sample_urls))) /\
  Forall2 (fun u row =>
             Forall2 (fun k cell =>
                        dict_lookup k (response sample_world u) = None ->
                        cell = NaN)
                     (df_columns sample_table) row)
          (filter (yields_row sample_world) sample_urls) (df_data sample_table).
Proof.
  destruct (proj1 (table_columns sample_world)
              sample_urls [] sample_table sample_log
              ltac:(vm_compute; reflexivity))
    as (Hname & _ & Hrows & Hcols & Hnan).
  repeat split; assumption.
Defined.

(** C9 fails as stated: the columns of a batch table are the keys the
    responses happened to contain, not the question catalogue. *)
Lemma batch_columns_follow_responses :
  exists df,
    fst (run (analyze_multiple_repositories sample_world sample_urls))
    = Ok (Some df) /\
    df_columns df = ["rbac_enabled"; "differentiators_from_aiflow"; "notes"] /\
    df_columns df <> question_keys.
Proof.
  exists sample_table. split; [unfold run; now rewrite sample_run |].
  split; [reflexivity | discriminate].
Qed.

(** * Further properties *)

(** ** Repository name *)

Lemma string_app_assoc (s t u : string) : (s ++ t) ++ u = s ++ (t ++ u).
Proof. induction s as [| a s IH]; cbn; [reflexivity | now rewrite IH]. Qed.

Lemma rstrip_repeat c s n :
  rstrip c (s ++ repeat_str (String c EmptyString) n) = rstrip c s.
Proof.
  revert s. induction n as [| n IH]; intros s; cbn [repeat_str].
  - assert (E : s ++ EmptyString = s)
      by (induction s as [| a s IHs]; cbn; [reflexivity | now rewrite IHs]).
    now rewrite E.
  - rewrite <- string_app_assoc, IH. apply rstrip_app_sep.
Qed.

Lemma rstrip_without_sep c s : contains_char c s = false -> rstrip c s = s.
Proof.
  induction s as [| a s IH]; cbn; [reflexivity |].
  intros H. apply orb_false_iff in H. destruct H as [Ha Hs].
  rewrite (IH Hs). destruct s; [now rewrite Ha | reflexivity].
Qed.

Lemma rstrip_app_kept c s t :
  rstrip c t <> EmptyString -> rstrip c (s ++ t) = s ++ rstrip c t.
Proof.
  intros Ht. induction s as [| a s IH]; cbn; [reflexivity |].
  rewrite IH. destruct (s ++ rstrip c t) eqn:E; [| reflexivity].
  destruct s; cbn in E; [now elim Ht | discriminate E].
Qed.

Lemma split_app_sep c s t :
  split c (s ++ String c t) = (split c s ++ split c t)%list.
Proof.
  induction s as [| a s IH]; cbn.
  - now rewrite Ascii.eqb_refl.
  - destruct (Ascii.eqb a c); [now rewrite IH |].
    rewrite IH. destruct (split c s) as [| h tl] eqn:E;
      [now apply split_not_nil in E | reflexivity].
Qed.

Lemma split_without_sep c s : contains_char c s = false -> split c s = [s].
Proof.
  induction s as [| a s IH]; cbn; [reflexivity |].
  intros H. apply orb_false_iff in H. destruct H as [Ha Hs].
  now rewrite Ha, (IH Hs).
Qed.

(** Joining the segments with the separator gives the text back. *)
Lemma join_split c s : join (String c EmptyString) (split c s) = s.
Proof.
  unfold join. induction s as [| a s IH]; cbn; [reflexivity |].
  destruct (Ascii.eqb_spec a c) as [-> | Hac].
  - destruct (split c s) as [| h tl] eqn:E; [now apply split_not_nil in E |].
    cbn in *. now rewrite IH.
  - destruct (split c s) as [| h tl] eqn:E; [now apply split_not_nil in E |].
    cbn in *. destruct tl; cbn in *; now rewrite <- IH.
Qed.

(** X1: the derived repository name is the last path segment: for a URL
    that ends in [/name] followed by any number of slashes, with [name]
    not empty and without a slash, the name is [name]; a URL made of
    slashes only (or empty) gives the empty name rather than an error. *)
Theorem repo_name_last_segment :
  (forall base name n,
      contains_char "/" name = false -> name <> EmptyString ->
      derive_repo_name (base ++ "/" ++ name ++ repeat_str "/" n) = Ok name) /\
  (forall n, derive_repo_name (repeat_str "/" n) = Ok EmptyString).
Proof.
  split.
  - intros base name n Hname Hne.
    rewrite derive_repo_name_total. f_equal. unfold repo_name.
    assert (E : base ++ "/" ++ name ++ repeat_str "/" n
                = (base ++ String "/" name) ++ repeat_str "/" n)
      by (now rewrite string_app_assoc).
    assert (Ekeep : rstrip "/" (String "/" name) = String "/" name).
    { cbn [rstrip]. rewrite (rstrip_without_sep _ _ Hname).
      now destruct name. }
    rewrite E, rstrip_repeat, rstrip_app_kept by (rewrite Ekeep; discriminate).
    rewrite Ekeep, split_app_sep, (split_without_sep _ _ Hname).
    apply last_last.
  - intros n. rewrite derive_repo_name_total. f_equal. unfold repo_name.
    change (repeat_str "/" n) with (EmptyString ++ repeat_str "/" n).
    now rewrite rstrip_repeat.
Qed.

Lemma repo_name_last_segment_witness :
  derive_repo_name "https://github.com/microsoft/azurechat//" = Ok "azurechat".
Proof.
  apply (proj1 repo_name_last_segment "https://github.com/microsoft" "azurechat" 2).
  - reflexivity.
  - discriminate.
Defined.

(** ** The formatter *)

Lemma mapM_raise_inv {A B} (f : A -> outcome B) (l : list A) e :
  mapM f l = Raise e -> exists a, In a l /\ f a = Raise e.
Proof.
  induction l as [| a l IH]; cbn; [discriminate |].
  destruct (f a) as [b | e'] eqn:Ea.
  - destruct (mapM f l) as [bs | e'']; [discriminate |].
    intros H. injection H as ->. destruct IH as (a' & Hin & Ha'); [reflexivity |].
    exists a'. split; [now right | assumption].
  - intros H. injection H as ->. exists a. split; [now left | assumption].
Qed.

Lemma py_get_raise_msg x k default e :
  py_get x k default = Raise e ->
  e = no_attribute_get x /\ isinstance_dict x = false.
Proof. destruct x; cbn; intros H; inversion H; now split. Qed.

Ltac get_step :=
  match goal with
  | |- context [py_get ?x ?k ?d] =>
      let E := fresh "E" in
      let H := fresh "H" in
      destruct (py_get x k d) eqn:E; cbn [bind ret Monad_outcome];
      [| intros H; injection H as <-; exists x;
         now apply py_get_raise_msg in E ]
  end.

Lemma render_cell_raise_msg results entry e :
  render_cell results entry = Raise e ->
  exists v, e = no_attribute_get v /\ isinstance_dict v = false.
Proof.
  unfold render_cell, confidence_cell, answer_cell.
  destruct (snd (snd entry)); repeat get_step; discriminate.
Qed.

(** X2: results that are not a dict at all ([None] from a failed analysis,
    unparsed text, a list) make the formatter raise at its first lookup,
    with the message [`'<type>' object has no attribute 'get'`]. *)
Theorem format_non_dict_results (url : string) (results : pyval) :
  isinstance_dict results = false ->
  format_analysis_results url results = Raise (no_attribute_get results).
Proof. intros H. destruct results; try reflexivity. discriminate H. Qed.

Lemma format_non_dict_results_witness :
  format_analysis_results "https://github.com/org/repo" PNone
  = Raise (mkExn AttributeError "'NoneType' object has no attribute 'get'").
Proof. apply (format_non_dict_results "https://github.com/org/repo" PNone). reflexivity. Defined.

(** X3: the formatter has two outcomes only.  Either it returns a row
    with the thirteen fixed columns whose first cell is the URL as given,
    or it raises an attribute error about [get] on a value that is not a
    dict; it raises nothing else. *)
Theorem format_outcomes (url : string) (results : pyval) :
  (exists row,
      format_analysis_results url results = Ok row /\
      dict_keys row = formatted_columns /\
      dict_lookup "Repository URL" row = Some (PStr url)) \/
  (exists v,
      format_analysis_results url results = Raise (no_attribute_get v) /\
      isinstance_dict v = false).
Proof.
  destruct (format_analysis_results url results) as [row | e] eqn:E.
  - left. exists row. split; [reflexivity |].
    split; [now apply format_columns with url results |].
    rewrite format_by_catalogue in E.
    destruct (mapM (render_cell results) catalogue); [| discriminate E].
    cbn in E. injection E as <-. reflexivity.
  - right. rewrite format_by_catalogue in E.
    destruct (mapM (render_cell results) catalogue) as [cells | e'] eqn:Em;
      [discriminate E |].
    cbn in E. injection E as <-.
    apply mapM_raise_inv in Em. destruct Em as (entry & _ & Hr).
    destruct (render_cell_raise_msg _ _ Hr) as (v & -> & Hv).
    exists v. now split.
Qed.

(** X4: the formatter reads the twelve catalogue questions and nothing
    else: results that agree on those keys give the same outcome, so any
    other key of a response (and the position of the keys) is dropped. *)
Theorem format_reads_catalogue_only (url : string) (d1 d2 : dict) :
  (forall key, In key question_keys -> dict_lookup key d1 = dict_lookup key d2) ->
  format_analysis_results url (PDict d1) = format_analysis_results url (PDict d2).
Proof.
  intros H. unfold format_analysis_results, confidence_cell, answer_cell.
  cbn [py_get bind ret Monad_outcome].
  rewrite !H by (cbn; tauto). reflexivity.
Qed.

Lemma format_reads_catalogue_only_witness :
  format_analysis_results "https://github.com/org/repo"
    (PDict [("differentiators_from_aiflow", PDict [("answer", PStr "none")]);
            ("notes", PDict [("answer", PStr "well documented")])])
  = format_analysis_results "https://github.com/org/repo"
      (PDict [("notes", PDict [("answer", PStr "well documented")])]).
Proof.
  apply format_reads_catalogue_only.
  intros key Hkey. cbn in Hkey.
  repeat (destruct Hkey as [<- | Hkey]; [reflexivity |]). contradiction.
Defined.

Lemma confidence_cell_shown d key :
  (forall q, dict_lookup key d = Some q -> isinstance_dict q = true) ->
  confidence_cell (PDict d) key = Ok (shown_cell d key WithConfidence).
Proof.
  intros Hq. unfold confidence_cell, shown_cell, question_object, field. cbn.
  destruct (dict_lookup key d) as [q |] eqn:E; [| reflexivity].
  specialize (Hq q eq_refl). destruct q; try discriminate Hq. reflexivity.
Qed.

Lemma answer_cell_shown d key default :
  (forall q, dict_lookup key d = Some q -> isinstance_dict q = true) ->
  answer_cell (PDict d) key (PStr default)
  = Ok (shown_cell d key (AnswerOnly default)).
Proof.
  intros Hq. unfold answer_cell, shown_cell, question_object, field. cbn.
  destruct (dict_lookup key d) as [q |] eqn:E; [| reflexivity].
  specialize (Hq q eq_refl). destruct q; try discriminate Hq. reflexivity.
Qed.

(** The row of results whose question fields are all dicts. *)
Lemma format_shown_row url d :
  (forall key q, In key question_keys -> dict_lookup key d = Some q ->
                 isinstance_dict q = true) ->
  format_analysis_results url (PDict d) =
  Ok (("Repository URL", PStr url)
        :: map (fun entry =>
                  (fst (snd entry), shown_cell d (fst entry) (snd (snd entry))))
               catalogue).
Proof.
  intros Hd. unfold format_analysis_results.
  rewrite !confidence_cell_shown by (intros q; apply Hd; cbn; tauto).
  rewrite !answer_cell_shown by (intros q; apply Hd; cbn; tauto).
  reflexivity.
Qed.

(** X5: on results whose question fields are dicts the formatter never
    raises.  A differentiator or notes column holds the answer itself, not
    turned into text (a list stays a list); a column with confidence
    always holds text, which is [str(answer) (str(confidence_level))],
    with the defaults ["Unknown"] and ["low"], for answers and confidences
    that are text themselves or contain ASCII text only. *)
Theorem format_row_cells (url : string) (d : dict) :
  (forall key q, In key question_keys -> dict_lookup key d = Some q ->
                 isinstance_dict q = true) ->
  exists row,
    format_analysis_results url (PDict d) = Ok row /\
    (forall key label default,
        In (key, (label, AnswerOnly default)) catalogue ->
        dict_lookup label row
        = Some (field (question_object d key) "answer" (PStr default))) /\
    (forall key label,
        In (key, (label, WithConfidence)) catalogue ->
        exists text, dict_lookup label row = Some (PStr text)) /\
    (forall key label answer confidence,
        In (key, (label, WithConfidence)) catalogue ->
        field (question_object d key) "answer" (PStr "Unknown") = answer ->
        field (question_object d key) "confidence_level" (PStr "low") = confidence ->
        str_exact answer = true ->
        str_exact confidence = true ->
        dict_lookup label row
        = Some (PStr (py_str answer ++ " (" ++ py_str confidence ++ ")"))).
Proof.
  intros Hd. rewrite (format_shown_row url d Hd). eexists. split; [reflexivity |].
  split; [| split].
  - intros key label default Hin. unfold catalogue in Hin. cbn [In] in Hin.
    repeat (destruct Hin as [Hin | Hin];
            [first [ injection Hin as <- <- <-; reflexivity | discriminate Hin ] |]).
    contradiction.
  - intros key label Hin. unfold catalogue in Hin. cbn [In] in Hin.
    repeat (destruct Hin as [Hin | Hin];
            [first [ injection Hin as <- <-; eexists; reflexivity
                   | discriminate Hin ] |]).
    contradiction.
  - intros key label answer confidence Hin <- <- _ _.
    unfold catalogue in Hin. cbn [In] in Hin.
    repeat (destruct Hin as [Hin | Hin];
            [first [ injection Hin as <- <-; reflexivity | discriminate Hin ] |]).
    contradiction.
Qed.

Lemma format_row_cells_witness :
  exists row,
    format_analysis_results "https://github.com/org/repo"
      (PDict [("azure_services_count",
               PDict [("answer", PInt 11); ("confidence_level", PStr "high")]);
              ("differentiators_from_asksage",
               PDict [("answer", PList [PStr "a"; PStr "b"])])])
    = Ok row /\
    dict_lookup "# of Azure Services?" row = Some (PStr "11 (high)") /\
    dict_lookup "Differentiators from AskSage" row
    = Some (PList [PStr "a"; PStr "b"]).
Proof.
  destruct (format_row_cells "https://github.com/org/repo"
              [("azure_services_count",
                PDict [("answer", PInt 11); ("confidence_level", PStr "high")]);
               ("differentiators_from_asksage",
                PDict [("answer", PList [PStr "a"; PStr "b"])])])
    as (row & Hrow & Hraw & _ & Htext).
  - intros key q _. cbn.
    destruct (String.eqb key "azure_services_count");
      [intros H; injection H as <-; reflexivity |].
    destruct (String.eqb key "differentiators_from_asksage");
      [intros H; injection H as <-; reflexivity | discriminate].
  - exists row. split; [exact Hrow |]. split.
    + apply (Htext "azure_services_count" _ (PInt 11) (PStr "high"));
        [cbn; tauto | reflexivity | reflexivity | reflexivity | reflexivity].
    + apply (Hraw "differentiators_from_asksage" _ "Unknown"). cbn. tauto.
Defined.

(** X6: the confidence is read under the key [confidence_level] only: a
    per-question object without that key is shown with the confidence
    [low], whatever it holds under [confidence]; the text before it is
    [str(answer)], rendered by [py_str] for an answer that is text itself
    or contains ASCII text only. *)
Theorem confidence_needs_confidence_level (url : string) (d q : dict)
        (key label : string) (answer : pyval) :
  (forall key q, In key question_keys -> dict_lookup key d = Some q ->
                 isinstance_dict q = true) ->
  In (key, (label, WithConfidence)) catalogue ->
  dict_lookup key d = Some (PDict q) ->
  dict_lookup "answer" q = Some answer ->
  dict_lookup "confidence_level" q = None ->
  exists row text,
    format_analysis_results url (PDict d) = Ok row /\
    dict_lookup label row = Some (PStr (text ++ " (low)")) /\
    (str_exact answer = true -> text = py_str answer).
Proof.
  intros Hd Hin Hq Ha Hc. rewrite (format_shown_row url d Hd).
  eexists. exists (py_str answer). split; [reflexivity |].
  split; [| reflexivity].
  assert (Hcell : shown_cell d key WithConfidence = PStr (py_str answer ++ " (low)")).
  { unfold shown_cell, question_object, field. now rewrite Hq, Ha, Hc. }
  rewrite <- Hcell. unfold catalogue in Hin. cbn [In] in Hin.
  repeat (destruct Hin as [Hin | Hin];
          [first [ injection Hin as <- <-; reflexivity | discriminate Hin ] |]).
  contradiction.
Qed.

Lemma confidence_needs_confidence_level_witness :
  exists row,
    format_analysis_results "https://github.com/microsoft/azurechat"
      (PDict [("chat_history",
               PDict [("answer", PStr "Yes"); ("confidence", PStr "high")])])
    = Ok row /\
    dict_lookup "Chat History?" row = Some (PStr "Yes (low)").
Proof.
  destruct (@confidence_needs_confidence_level
              "https://github.com/microsoft/azurechat"
              [("chat_history",
                PDict [("answer", PStr "Yes"); ("confidence", PStr "high")])]
              [("answer", PStr "Yes"); ("confidence", PStr "high")]
              "chat_history" "Chat History?" (PStr "Yes"))
    as (row & text & Hrow & Hcell & Htext).
  - intros key q _. cbn. destruct (String.eqb key "chat_history");
      [intros H; injection H as <-; reflexivity | discriminate].
  - cbn. tauto.
  - reflexivity.
  - reflexivity.
  - reflexivity.
  - exists row. split; [exact Hrow |].
    rewrite Hcell, (Htext eq_refl). reflexivity.
Defined.

(** ** The single-repository orchestrator *)

Ltac run_orchestrator :=
  unfold analyze_github_repository;
  cbn [bind Monad_py]; unfold print, lift, try_except; cbn [bind Monad_py].

(** X7: when both stages return, the orchestrator returns what
    [analyze_repo] returned, whatever its shape, after printing its four
    progress lines (and the dumped document in between when verbose). *)
Theorem analysis_success (W : World) (url : string) (repo_data result : pyval) :
  GitHubRepoAnalyzer_init W = Ok tt ->
  AzureOpenAIAnalyzer_init W = Ok tt ->
  extract_repo_info W url = Ok repo_data ->
  analyze_repo W repo_data = Ok result ->
  (forall out,
      analyze_github_repository W url false out =
      (Ok result,
       (out ++ [start_line url; fetch_line; completion_line; complete_line])%list)) /\
  (forall out dumped,
      json_dumps W repo_data = Ok dumped ->
      analyze_github_repository W url true out =
      (Ok result,
       (out ++ [start_line url; fetch_line; dump_line dumped;
                completion_line; complete_line])%list)).
Proof.
  intros Hg Ha Hx Hr. split.
  - intros out. run_orchestrator. rewrite Hg, Ha, Hx. cbn. rewrite Hr. cbn.
    now rewrite <- !app_assoc.
  - intros out dumped Hj. run_orchestrator. rewrite Hg, Ha, Hx. cbn.
    rewrite Hj. cbn. rewrite Hr. cbn. now rewrite <- !app_assoc.
Qed.

Lemma analysis_success_witness :
  run (analyze_github_repository sample_world sample_url_C true) =
  (Ok (PDict sample_answers_C),
   [ start_line sample_url_C; fetch_line; dump_line "{}";
     completion_line; complete_line ]).
Proof.
  apply (proj2 (@analysis_success sample_world sample_url_C
                  (PDict [("url", PStr sample_url_C)]) (PDict sample_answers_C)
                  eq_refl eq_refl eq_refl eq_refl) [] "{}").
  reflexivity.
Defined.

(** X8: the two analyzers are constructed outside the [try] blocks: an
    error raised by either constructor, of whatever class, leaves the
    orchestrator after its first line, and a batch run stops at that URL
    with the same error. *)
Theorem constructor_failure_propagates (W : World) (url : string) (e : exn) :
  GitHubRepoAnalyzer_init W = Raise e \/
  (GitHubRepoAnalyzer_init W = Ok tt /\ AzureOpenAIAnalyzer_init W = Raise e) ->
  (forall verbose out,
      analyze_github_repository W url verbose out
      = (Raise e, (out ++ [start_line url])%list)) /\
  (forall rest out,
      analyze_multiple_repositories W (url :: rest) out
      = (Raise e, (out ++ [banner url; start_line url])%list)).
Proof.
  intros H.
  assert (Hone : forall verbose out,
             analyze_github_repository W url verbose out
             = (Raise e, (out ++ [start_line url])%list)).
  { intros verbose out. run_orchestrator.
    destruct H as [Hg | [Hg Ha]]; rewrite Hg; [reflexivity |].
    rewrite Ha. reflexivity. }
  split; [exact Hone |].
  intros rest out. unfold analyze_multiple_repositories. cbn [bind Monad_py].
  rewrite analyze_loop_cons. unfold analysis_of, analysis_log, run.
  rewrite Hone. reflexivity.
Qed.

Lemma constructor_failure_propagates_witness :
  run (analyze_multiple_repositories
         (mkWorld (Ok tt)
                  (Raise (mkExn (OtherException "ValueError") "missing credentials"))
                  (extract_repo_info sample_world) (analyze_repo sample_world)
                  (json_dumps sample_world) (to_csv sample_world))
         [sample_url_A; sample_url_C])
  = (Raise (mkExn (OtherException "ValueError") "missing credentials"),
     [banner sample_url_A; start_line sample_url_A]).
Proof.
  apply (proj2 (@constructor_failure_propagates
                  (mkWorld (Ok tt)
                     (Raise (mkExn (OtherException "ValueError") "missing credentials"))
                     (extract_repo_info sample_world) (analyze_repo sample_world)
                     (json_dumps sample_world) (to_csv sample_world))
                  sample_url_A
                  (mkExn (OtherException "ValueError") "missing credentials")
                  (or_intror (conj eq_refl eq_refl)))
               [sample_url_C] []).
Defined.

(** X9: in verbose mode the dump of the fetched document runs inside the
    first [try]: when [json.dumps] raises an error, the orchestrator
    reports it as an extraction error and returns [None], and the
    completion service is not consulted (the outcome is the same whatever
    [analyze_repo] would do). *)
Theorem verbose_dump_failure (W : World) (url : string) (repo_data : pyval)
        (e : exn) (out : list string) :
  GitHubRepoAnalyzer_init W = Ok tt ->
  AzureOpenAIAnalyzer_init W = Ok tt ->
  extract_repo_info W url = Ok repo_data ->
  json_dumps W repo_data = Raise e ->
  is_Exception e = true ->
  analyze_github_repository W url true out =
  (Ok PNone, (out ++ [start_line url; fetch_line; fetch_error_line e])%list).
Proof.
  intros Hg Ha Hx Hj He. run_orchestrator. rewrite Hg, Ha, Hx. cbn.
  rewrite Hj. cbn. rewrite He. cbn. now rewrite <- !app_assoc.
Qed.

Lemma verbose_dump_failure_witness :
  run (analyze_github_repository
         (mkWorld (Ok tt) (Ok tt)
                  (extract_repo_info sample_world) (analyze_repo sample_world)
                  (fun _ => Raise (mkExn TypeError "not JSON serializable"))
                  (to_csv sample_world))
         sample_url_A true)
  = (Ok PNone,
     [ start_line sample_url_A; fetch_line;
       fetch_error_line (mkExn TypeError "not JSON serializable") ]).
Proof.
  apply (@verbose_dump_failure
           (mkWorld (Ok tt) (Ok tt)
              (extract_repo_info sample_world) (analyze_repo sample_world)
              (fun _ => Raise (mkExn TypeError "not JSON serializable"))
              (to_csv sample_world))
           sample_url_A (PDict [("url", PStr sample_url_A)])
           (mkExn TypeError "not JSON serializable") []); reflexivity.
Defined.

(** X10: the handlers are [except Exception]: what a stage raises outside
    that class (a keyboard interrupt, a system exit) is neither printed
    nor turned into [None]; it leaves the orchestrator and stops a batch
    run at that URL. *)
Theorem non_exception_propagates (W : World) (url : string) (e : exn) :
  GitHubRepoAnalyzer_init W = Ok tt ->
  AzureOpenAIAnalyzer_init W = Ok tt ->
  is_Exception e = false ->
  extract_repo_info W url = Raise e \/
  (exists repo_data, extract_repo_info W url = Ok repo_data /\
                     analyze_repo W repo_data = Raise e) ->
  (exists printed,
      (forall out, analyze_github_repository W url false out
                   = (Raise e, (out ++ printed)%list)) /\
      ~ In (fetch_error_line e) printed /\
      ~ In (completion_error_line e) printed) /\
  (forall rest, fst (run (analyze_multiple_repositories W (url :: rest))) = Raise e).
Proof.
  intros Hg Ha He Hfail.
  assert (Hone : exists printed,
             (forall out, analyze_github_repository W url false out
                          = (Raise e, (out ++ printed)%list)) /\
             ~ In (fetch_error_line e) printed /\
             ~ In (completion_error_line e) printed).
  { destruct Hfail as [Hx | (repo_data & Hx & Hr)].
    - exists [start_line url; fetch_line]. split.
      + intros out. run_orchestrator. rewrite Hg, Ha, Hx, He. cbn.
        now rewrite <- !app_assoc.
      + split; intros [H | [H | []]]; discriminate H.
    - exists [start_line url; fetch_line; completion_line]. split.
      + intros out. run_orchestrator. rewrite Hg, Ha, Hx. cbn.
        rewrite Hr, He. cbn. now rewrite <- !app_assoc.
      + split; intros [H | [H | [H | []]]]; discriminate H. }
  split; [exact Hone |].
  destruct Hone as (printed & Hrun & _).
  intros rest. unfold run, analyze_multiple_repositories. cbn [bind Monad_py].
  rewrite analyze_loop_cons. unfold analysis_of, analysis_log, run.
  rewrite Hrun. reflexivity.
Qed.

Lemma non_exception_propagates_witness :
  fst (run (analyze_multiple_repositories
              (mkWorld (Ok tt) (Ok tt)
                 (fun _ => Raise (mkExn (NonException "KeyboardInterrupt") EmptyString))
                 (analyze_repo sample_world) (json_dumps sample_world)
                 (to_csv sample_world))
              [sample_url_A; sample_url_C]))
  = Raise (mkExn (NonException "KeyboardInterrupt") EmptyString).
Proof.
  apply (proj2 (@non_exception_propagates
                  (mkWorld (Ok tt) (Ok tt)
                     (fun _ => Raise (mkExn (NonException "KeyboardInterrupt") EmptyString))
                     (analyze_repo sample_world) (json_dumps sample_world)
                     (to_csv sample_world))
                  sample_url_A
                  (mkExn (NonException "KeyboardInterrupt") EmptyString)
                  eq_refl eq_refl eq_refl (or_introl eq_refl))
               [sample_url_C]).
Defined.

(** ** The batch orchestrator *)

Lemma analyze_loop_app W urls1 urls2 :
  forall results out,
    analyze_loop W (urls1 ++ urls2) results out =
    match analyze_loop W urls1 results out with
    | (Ok results', out') => analyze_loop W urls2 results' out'
    | (Raise e, out') => (Raise e, out')
    end.
Proof.
  induction urls1 as [| url rest IH]; intros results out; [reflexivity |].
  change ((url :: rest) ++ urls2)%list with (url :: (rest ++ urls2))%list.
  rewrite !analyze_loop_cons. cbn zeta.
  destruct (analysis_of W url) as [v | e]; [| reflexivity].
  destruct (truthy v); [| apply IH].
  destruct v; try reflexivity. apply IH.
Qed.

(** X11: a result that is truthy but not a mapping (unparsed text, a
    list, a number) is not skipped: the dict display raises [TypeError]
    and the run stops there, whatever was collected before and whatever
    URLs follow. *)
Theorem batch_aborts_on_non_mapping (W : World) (urls1 urls2 : list string)
        (url : string) (v : pyval) :
  (forall u, In u urls1 ->
             exists r, analysis_of W u = Ok r /\
                       (truthy r = true -> isinstance_dict r = true)) ->
  analysis_of W url = Ok v ->
  truthy v = true ->
  isinstance_dict v = false ->
  fst (run (analyze_multiple_repositories W (urls1 ++ url :: urls2)))
  = Raise (not_a_mapping v).
Proof.
  intros Hbefore Hv Ht Hd. unfold run, analyze_multiple_repositories.
  cbn [bind Monad_py]. rewrite analyze_loop_app.
  destruct (analyze_loop_ok W urls1 [] [] Hbefore) as (log & ->).
  rewrite analyze_loop_cons, Hv, Ht. cbn zeta.
  destruct v; try reflexivity. discriminate Hd.
Qed.

Lemma batch_aborts_on_non_mapping_witness :
  fst (run (analyze_multiple_repositories
              (mkWorld (Ok tt) (Ok tt) (extract_repo_info sample_world)
                 (fun repo_data =>
                    match analyze_repo sample_world repo_data with
                    | Ok (PDict (("notes", _) :: _)) => Ok (PStr "{}")
                    | r => r
                    end)
                 (json_dumps sample_world) (to_csv sample_world))
              ([sample_url_A; sample_url_B] ++ sample_url_C :: [sample_url_A])))
  = Raise (mkExn TypeError "'str' object is not a mapping").
Proof.
  apply (@batch_aborts_on_non_mapping
           (mkWorld (Ok tt) (Ok tt) (extract_repo_info sample_world)
              (fun repo_data =>
                 match analyze_repo sample_world repo_data with
                 | Ok (PDict (("notes", _) :: _)) => Ok (PStr "{}")
                 | r => r
                 end)
              (json_dumps sample_world) (to_csv sample_world))
           [sample_url_A; sample_url_B] [sample_url_A] sample_url_C (PStr "{}")).
  - intros u [<- | [<- | []]]; eexists; (split; [vm_compute; reflexivity |]);
      intros H; first [reflexivity | discriminate H].
  - vm_compute. reflexivity.
  - reflexivity.
  - reflexivity.
Defined.

(** X12: the write of the combined CSV is not guarded: when [to_csv]
    raises on the table of a run that collected rows, the run raises that
    error and returns no table. *)
Theorem batch_csv_failure_propagates (W : World) (urls : list string) (e : exn) :
  (forall u, In u urls ->
             exists r, analysis_of W u = Ok r /\
                       (truthy r = true -> isinstance_dict r = true)) ->
  batch_records W urls <> [] ->
  to_csv W (batch_frame (batch_records W urls)) comparison_csv true = Raise e ->
  fst (run (analyze_multiple_repositories W urls)) = Raise e.
Proof.
  intros Hall Hne Hcsv. unfold run, analyze_multiple_repositories.
  cbn [bind Monad_py].
  destruct (analyze_loop_ok W urls [] [] Hall) as (log & ->).
  cbn [app]. fold (batch_records W urls).
  assert (Hnamed : Forall named (batch_records W urls)).
  { apply batch_records_named. intros u Hu. apply filter_In in Hu.
    destruct Hu as [Hu Hy]. destruct (Hall u Hu) as (v & Ev & Hv).
    rewrite (yields_row_eq _ _ Ev) in Hy. specialize (Hv Hy).
    destruct v as [| | | | | | d]; try discriminate Hv.
    exists d. split; [assumption |]. now destruct d. }
  destruct (batch_records W urls) as [| r0 rs] eqn:Er; [now elim Hne |].
  unfold lift. rewrite set_index_records; [| discriminate | assumption].
  now rewrite Hcsv.
Qed.

Lemma batch_csv_failure_propagates_witness :
  fst (run (analyze_multiple_repositories
              (mkWorld (Ok tt) (Ok tt) (extract_repo_info sample_world)
                 (analyze_repo sample_world) (json_dumps sample_world)
                 (fun _ _ _ => Raise (mkExn (OtherException "OSError")
                                        "Cannot save file into a non-existent directory: 'data'")))
              sample_urls))
  = Raise (mkExn (OtherException "OSError")
             "Cannot save file into a non-existent directory: 'data'").
Proof.
  apply (@batch_csv_failure_propagates
           (mkWorld (Ok tt) (Ok tt) (extract_repo_info sample_world)
              (analyze_repo sample_world) (json_dumps sample_world)
              (fun _ _ _ => Raise (mkExn (OtherException "OSError")
                                     "Cannot save file into a non-existent directory: 'data'")))
           sample_urls).
  - intros u [<- | [<- | [<- | []]]]; eexists; (split; [vm_compute; reflexivity |]);
      intros H; first [reflexivity | discriminate H].
  - vm_compute. discriminate.
  - reflexivity.
Defined.

Lemma analyze_multiple_repositories_log W urls out r log :
  analyze_multiple_repositories W urls out = (Ok r, log) ->
  exists before,
    log = (before ++
             [match batch_records W urls with
              | [] => "No valid analysis results"
              | records => saved_line (length records)
              end])%list.
Proof.
  unfold analyze_multiple_repositories. cbn [bind Monad_py].
  destruct (analyze_loop W urls [] out) as [[records | e] log'] eqn:E;
    [| discriminate].
  apply analyze_loop_inv in E. destruct E as [-> Hin]. cbn [app].
  fold (batch_records W urls). intros H.
  pose proof (batch_records_named W urls Hin) as Hnamed.
  destruct (batch_records W urls) as [| r0 rs] eqn:Er.
  - cbn in H. injection H as _ <-. now exists log'.
  - unfold lift in H. rewrite set_index_records in H;
      [| discriminate | assumption].
    destruct (to_csv W (batch_frame (r0 :: rs)) comparison_csv true);
      [| discriminate H].
    cbn in H. injection H as _ <-. now exists log'.
Qed.

(** X13: a batch run that returns gives [None] exactly when no URL
    produced a row; a table it returns is never empty, has one index entry
    per row and at most as many rows as URLs, and the last line printed
    states that number of rows. *)
Theorem batch_table_shape (W : World) (urls out : list string)
        (r : option DataFrame) (log : list string) :
  analyze_multiple_repositories W urls out = (Ok r, log) ->
  (r = None <-> filter (yields_row W) urls = []) /\
  (forall df, r = Some df ->
              df_data df <> [] /\
              length (df_index df) = length (df_data df) /\
              length (df_data df) <= length urls /\
              exists before,
                log = (before ++ [saved_line (length (df_data df))])%list).
Proof.
  intros H. pose proof (analyze_multiple_repositories_log _ _ _ H) as Hlog.
  apply analyze_multiple_repositories_inv in H.
  destruct H as [_ [[Hrec ->] | [Hrec ->]]]; unfold batch_records in *.
  - split.
    + split; [intros _ | reflexivity].
      destruct (filter (yields_row W) urls); [reflexivity | discriminate Hrec].
    + intros df Hdf. discriminate Hdf.
  - split.
    + split; [discriminate |]. intros Hnil. rewrite Hnil in Hrec. now elim Hrec.
    + intros df Hdf. injection Hdf as <-.
      cbn [batch_frame df_data df_index]. rewrite !length_map.
      split; [| split; [reflexivity | split; [apply filter_length_le |]]].
      * destruct (filter (yields_row W) urls); [now elim Hrec | discriminate].
      * destruct Hlog as (before & ->). exists before.
        destruct (map (record_of W) (filter (yields_row W) urls)) eqn:E;
          [now elim Hrec |].
        rewrite <- E, length_map. reflexivity.
Qed.

Lemma batch_table_shape_witness :
  df_data sample_table <> [] /\
  length (df_index sample_table) = length (df_data sample_table) /\
  length (df_data sample_table) <= length sample_urls /\
  exists before,
    sample_log = (before ++ [saved_line (length (df_data sample_table))])%list.
Proof.
  apply (proj2 (@batch_table_shape sample_world sample_urls []
                  (Some sample_table) sample_log
                  ltac:(vm_compute; reflexivity))
               sample_table eq_refl).
Defined.

(** *** Keys and columns *)

(** X14: the record of a row is the response with the repository name
    put in front: every key of the response keeps its value, and the key
    ["Repository Name"] holds the derived name unless the response has
    that key itself, in which case the response's value is the index
    entry. *)
Theorem record_keeps_response (W : World) (url : string) (d : dict) :
  analysis_of W url = Ok (PDict d) ->
  NoDup (dict_keys d) ->
  (forall k, dict_lookup k (record_of W url)
             = match dict_lookup k d with
               | Some v => Some v
               | None => if String.eqb k "Repository Name"
                         then Some (PStr (repo_name url)) else None
               end) /\
  index_cell W url = field d "Repository Name" (PStr (repo_name url)).
Proof.
  intros Hd Hnd.
  assert (Hlookup : forall k, dict_lookup k (record_of W url)
             = match dict_lookup k d with
               | Some v => Some v
               | None => if String.eqb k "Repository Name"
                         then Some (PStr (repo_name url)) else None
               end).
  { intros k. rewrite (record_of_eq _ _ Hd), (@dict_update_lookup k d Hnd).
    reflexivity. }
  split; [exact Hlookup |].
  unfold index_cell, cell_of, field. rewrite Hlookup.
  now destruct (dict_lookup "Repository Name" d).
Qed.

Lemma record_keeps_response_witness :
  dict_lookup "notes" (record_of sample_world sample_url_C)
  = Some (PDict [("answer", PStr "well documented")]) /\
  index_cell sample_world sample_url_C = PStr "C".
Proof.
  destruct (@record_keeps_response sample_world sample_url_C sample_answers_C)
    as [Hlookup Hindex].
  - vm_compute. reflexivity.
  - repeat constructor; cbn; intuition discriminate.
  - split; [apply (Hlookup "notes") | exact Hindex].
Defined.

Lemma add_unseen_spec ks :
  forall acc,
    NoDup acc ->
    NoDup (add_unseen acc ks) /\
    (forall k, In k (add_unseen acc ks) <-> In k acc \/ In k ks).
Proof.
  unfold add_unseen.
  induction ks as [| k0 ks IH]; intros acc Hnd; cbn [fold_left].
  - split; [assumption |]. intros k. cbn. tauto.
  - destruct (mem_str k0 acc) eqn:Hm.
    + destruct (IH acc Hnd) as [Hnd' Hin]. split; [assumption |].
      intros k. rewrite Hin. apply mem_str_In in Hm. cbn.
      split; [tauto |]. intros [H | [<- | H]]; auto.
    + assert (Hnotin : ~ In k0 acc).
      { intros H. apply mem_str_In in H. rewrite H in Hm. discriminate Hm. }
      destruct (IH (acc ++ [k0])%list) as [Hnd' Hin].
      { apply NoDup_app; [assumption | repeat constructor; intros [] |].
        intros x Hx [<- | []]. now elim Hnotin. }
      split; [assumption |]. intros k. rewrite Hin, in_app_iff. cbn. tauto.
Qed.

Lemma union_keys_from records :
  forall acc,
    NoDup acc ->
    let cols := fold_left (fun acc d => add_unseen acc (dict_keys d)) records acc in
    NoDup cols /\
    (forall k, In k cols <->
               In k acc \/ exists d, In d records /\ In k (dict_keys d)).
Proof.
  induction records as [| d records IH]; intros acc Hnd; cbn [fold_left].
  - split; [assumption |]. intros k. split; [tauto |].
    intros [H | (d & [] & _)]. assumption.
  - destruct (add_unseen_spec (dict_keys d) Hnd) as [Hnd1 Hin1].
    destruct (IH _ Hnd1) as [Hnd2 Hin2]. split; [assumption |].
    intros k. rewrite Hin2, Hin1. split.
    + intros [[H | H] | (d' & Hd' & Hk)]; [now left | right | right].
      * exists d. split; [now left | assumption].
      * exists d'. split; [now right | assumption].
    + intros [H | (d' & [<- | Hd'] & Hk)]; [tauto | tauto |].
      right. now exists d'.
Qed.

Lemma union_keys_spec records :
  NoDup (union_keys records) /\
  (forall k, In k (union_keys records) <->
             exists d, In d records /\ In k (dict_keys d)).
Proof.
  destruct (union_keys_from records (acc := [])) as [Hnd Hin]; [constructor |].
  split; [exact Hnd |]. intros k. unfold union_keys. rewrite Hin.
  split; [intros [[] | H]; exact H | now right].
Qed.

(** X15: the columns of a batch table are distinct, none of them is
    ["Repository Name"], and they are exactly the other keys that occur
    in the responses of the rows. *)
Theorem batch_columns_are_response_keys (W : World) (urls out : list string)
        (df : DataFrame) (log : list string) :
  analyze_multiple_repositories W urls out = (Ok (Some df), log) ->
  NoDup (df_columns df) /\
  ~ In "Repository Name" (df_columns df) /\
  (forall k, In k (df_columns df) <->
             k <> "Repository Name" /\
             exists u d, In u (filter (yields_row W) urls) /\
                         analysis_of W u = Ok (PDict d) /\
                         In k (dict_keys d)).
Proof.
  intros H. apply analyze_multiple_repositories_inv in H.
  destruct H as [Hin [[_ H] | [Hne H]]]; [discriminate H |].
  injection H as ->. cbn [batch_frame df_columns].
  pose proof (batch_records_named W urls Hin) as Hnamed.
  destruct (union_keys_spec (batch_records W urls)) as [Hnd Hkeys].
  assert (Hhead : union_keys (batch_records W urls)
                  = "Repository Name" :: tl (union_keys (batch_records W urls))).
  { destruct (batch_records W urls) as [| r rs]; [now elim Hne |].
    inversion Hnamed as [| ? ? (v & rest & E) _]; subst.
    destruct (union_keys_head "Repository Name" v rest rs) as (cols & Hc).
    unfold dict in *. now rewrite Hc. }
  rewrite Hhead in Hnd. inversion Hnd as [| ? ? Hnotin Hnd']; subst.
  split; [assumption |]. split; [assumption |].
  intros k. split.
  - intros Hk. assert (Hkne : k <> "Repository Name")
      by (intros ->; now elim Hnotin).
    split; [assumption |].
    assert (Hk' : In k (union_keys (batch_records W urls)))
      by (rewrite Hhead; now right).
    apply Hkeys in Hk'. destruct Hk' as (r & Hr & Hkr).
    unfold batch_records in Hr. apply in_map_iff in Hr.
    destruct Hr as (u & <- & Hu). destruct (Hin u Hu) as (d & Hd & _).
    exists u, d. split; [assumption |]. split; [assumption |].
    rewrite (record_of_eq _ _ Hd) in Hkr. apply dict_update_keys in Hkr.
    destruct Hkr as [[E | []] | Hkd]; [now elim Hkne | assumption].
  - intros [Hkne (u & d & Hu & Hd & Hkd)].
    assert (Hk' : In k (union_keys (batch_records W urls))).
    { apply Hkeys. exists (record_of W u). split.
      - unfold batch_records. now apply in_map.
      - rewrite (record_of_eq _ _ Hd). apply dict_update_keys. now right. }
    rewrite Hhead in Hk'. destruct Hk' as [E | Hk']; [now elim Hkne | assumption].
Qed.

Lemma batch_columns_are_response_keys_witness :
  NoDup (df_columns sample_table) /\
  ~ In "Repository Name" (df_columns sample_table).
Proof.
  destruct (@batch_columns_are_response_keys sample_world sample_urls []
              sample_table sample_log ltac:(vm_compute; reflexivity))
    as (Hnd & Hnotin & _).
  now split.
Defined.

(** ** Boolean normalisation *)

Lemma replace_yes_no_out x :
  replace_cell yes_no x <> PStr "Yes" /\ replace_cell yes_no x <> PStr "No".
Proof.
  destruct x as [| | | | s | |]; cbn; try (split; discriminate).
  destruct (String.eqb_spec s "Yes") as [-> | Hy]; [split; discriminate |].
  destruct (String.eqb_spec s "No") as [-> | Hn]; [split; discriminate |].
  split; intros H; injection H as ->; [now elim Hy | now elim Hn].
Qed.

(** X16: the normalisation step never raises, whatever the cells hold,
    and changes cells only: index, index name and columns are those of the
    input, and every row keeps its number of cells. *)
Theorem answers_df_keeps_shape (df : DataFrame) :
  exists df1,
    answers_df df = Ok df1 /\
    df_index_name df1 = df_index_name df /\
    df_index df1 = df_index df /\
    df_columns df1 = df_columns df /\
    map (@length pyval) (df_data df1) = map (@length pyval) (df_data df).
Proof.
  eexists. split; [apply answers_df_total |].
  cbn. repeat split. rewrite map_map. apply map_ext. intros row.
  apply length_map.
Qed.

(** X17: after the normalisation step no cell is the text ["Yes"] or
    ["No"], whatever the input cells were. *)
Theorem answers_df_leaves_no_yes_no (df df1 : DataFrame) :
  answers_df df = Ok df1 ->
  Forall (Forall (fun cell => cell <> PStr "Yes" /\ cell <> PStr "No"))
         (df_data df1).
Proof.
  rewrite answers_df_total. intros H. injection H as <-. cbn.
  apply Forall_forall. intros row Hrow. apply in_map_iff in Hrow.
  destruct Hrow as (row0 & <- & _).
  apply Forall_forall. intros cell Hcell. apply in_map_iff in Hcell.
  destruct Hcell as (x & <- & _). apply replace_yes_no_out.
Qed.

Lemma answers_df_leaves_no_yes_no_witness :
  exists df1,
    answers_df sample_frame = Ok df1 /\
    Forall (Forall (fun cell => cell <> PStr "Yes" /\ cell <> PStr "No"))
           (df_data df1).
Proof.
  eexists. split; [vm_compute; reflexivity |].
  apply (@answers_df_leaves_no_yes_no sample_frame). vm_compute. reflexivity.
Defined.

(** ** Configuration check *)


(** ** Interactive input *)

Lemma input_loop_spec stdin :
  forall urls,
    match input_loop stdin urls with
    | Ok (read, unread) =>
        exists entered,
          read = (urls ++ entered)%list /\
          stdin = (entered ++ EmptyString :: unread)%list /\
          ~ In EmptyString entered
    | Raise e =>
        ~ In EmptyString stdin /\
        e = mkExn (OtherException "EOFError") "EOF when reading a line"
    end.
Proof.
  induction stdin as [| line rest IH]; intros urls; cbn [input_loop].
  - split; [intros [] | reflexivity].
  - destruct line as [| a line]; cbn [truthy String.eqb negb].
    + exists []. rewrite app_nil_r. repeat split. intros [].
    + specialize (IH (urls ++ [String a line])%list).
      destruct (input_loop rest (urls ++ [String a line])%list) as [[read unread] | e].
      * destruct IH as (entered & -> & -> & Hne).
        exists (String a line :: entered). rewrite <- app_assoc.
        repeat split. intros [H | H]; [discriminate H | now elim Hne].
      * destruct IH as [Hne ->]. split; [| reflexivity].
        intros [H | H]; [discriminate H | now elim Hne].
Qed.

(** X19: [input_multiple_repos] prints its prompt and returns the lines
    entered before the first blank line, in order and none of them empty,
    leaving the lines after the blank one unread; when the input ends
    without a blank line it raises [EOFError]. *)
Theorem input_multiple_repos_reads_until_blank (stdin : list string) :
  match run (input_multiple_repos stdin) with
  | (Ok (urls, unread), printed) =>
      stdin = (urls ++ EmptyString :: unread)%list /\
      ~ In EmptyString urls /\
      printed = [input_prompt]
  | (Raise e, printed) =>
      ~ In EmptyString stdin /\
      exn_class_of e = OtherException "EOFError" /\
      printed = [input_prompt]
  end.
Proof.
  unfold run, input_multiple_repos. cbn [bind Monad_py]. unfold print, lift.
  cbn [app]. pose proof (input_loop_spec stdin []) as H.
  destruct (input_loop stdin []) as [[urls unread] | e].
  - destruct H as (entered & -> & -> & Hne). now repeat split.
  - destruct H as [Hne ->]. now repeat split.
Qed.

(** ** The calling cells *)

(** X20: the single-repository cell passes the orchestrator's result to
    the formatter unchecked: when the analysis failed (the orchestrator
    returned [None]) the cell raises the attribute error
    [`'NoneType' object has no attribute 'get'`], after the orchestrator's
    own lines and without the saved-file line. *)
Theorem single_cell_fails_on_failed_analysis (W : World) (F : Frontend)
        (url : string) :
  analysis_of W url = Ok PNone ->
  run (single_repository_cell W F url)
  = (Raise (none_has_no "get"), analysis_log W url).
Proof.
  intros H. unfold run, single_repository_cell. cbn [bind Monad_py].
  rewrite analyze_github_repository_run. fold (analysis_of W url).
  fold (analysis_log W url). rewrite H. reflexivity.
Qed.

Lemma single_cell_fails_on_failed_analysis_witness :
  run (single_repository_cell sample_world
         (mkFrontend (fun _ => Ok sample_table) (fun _ => Ok tt)) sample_url_B)
  = (Raise (mkExn AttributeError "'NoneType' object has no attribute 'get'"),
     [ start_line sample_url_B; fetch_line;
       fetch_error_line (mkExn (OtherException "FetchError") "404 Not Found") ]).
Proof.
  apply (@single_cell_fails_on_failed_analysis sample_world
           (mkFrontend (fun _ => Ok sample_table) (fun _ => Ok tt)) sample_url_B).
  vm_compute. reflexivity.
Defined.

(** X21: when the analysis gives results whose question fields are dicts
    and the table can be built, shown and written, the single-repository
    cell ends by printing [Analysis saved to <name>_analysis.csv], where
    [<name>] is the derived repository name; the test on the formatted row
    never skips the saving, since that row is never empty. *)
Theorem single_cell_saves_under_repo_name (W : World) (F : Frontend)
        (url : string) (d : dict) (df : DataFrame) :
  analysis_of W url = Ok (PDict d) ->
  (forall key q, In key question_keys -> dict_lookup key d = Some q ->
                 isinstance_dict q = true) ->
  DataFrame_from_dict F (PDict d) = Ok df ->
  display_html F df = Ok tt ->
  to_csv W df (analysis_file url) true = Ok tt ->
  run (single_repository_cell W F url)
  = (Ok tt, (analysis_log W url ++ [saved_to_line (analysis_file url)])%list).
Proof.
  intros Hd Hshape Hfrom Hshow Hcsv.
  unfold run, single_repository_cell. cbn [bind Monad_py].
  rewrite analyze_github_repository_run. fold (analysis_of W url).
  fold (analysis_log W url). rewrite Hd. unfold lift.
  rewrite (format_shown_row url d Hshape). cbn [truthy].
  rewrite Hfrom, Hshow, derive_repo_name_total. cbn [bind Monad_py].
  fold (analysis_file url). rewrite Hcsv. reflexivity.
Qed.

Lemma single_cell_saves_under_repo_name_witness :
  run (single_repository_cell sample_world
         (mkFrontend (fun _ => Ok sample_table) (fun _ => Ok tt)) sample_url_A)
  = (Ok tt,
     (analysis_log sample_world sample_url_A
        ++ [saved_to_line "A_analysis.csv"])%list).
Proof.
  apply (@single_cell_saves_under_repo_name sample_world
           (mkFrontend (fun _ => Ok sample_table) (fun _ => Ok tt))
           sample_url_A sample_answers_A sample_table).
  - vm_compute. reflexivity.
  - intros key q _. cbn.
    destruct (String.eqb key "rbac_enabled");
      [intros H; injection H as <-; reflexivity |].
    destruct (String.eqb key "differentiators_from_aiflow");
      [intros H; injection H as <-; reflexivity | discriminate].
  - reflexivity.
  - reflexivity.
  - reflexivity.
Defined.

(** X22: the batch example cell calls [to_html] on whatever the batch
    orchestrator returned: when no URL gave a row, the cell raises the
    attribute error [`'NoneType' object has no attribute 'to_html'`] right
    after the line [No valid analysis results]. *)
Theorem batch_cell_fails_without_rows (W : World) (F : Frontend)
        (urls : list string) :
  (forall u, In u urls -> analysis_of W u = Ok PNone) ->
  exists printed,
    run (batch_cell W F urls)
    = (Raise (none_has_no "to_html"),
       (printed ++ ["No valid analysis results"])%list).
Proof.
  intros Hall. unfold run, batch_cell. cbn [bind Monad_py].
  assert (Hrun : exists printed,
             analyze_multiple_repositories W urls []
             = (Ok None, (printed ++ ["No valid analysis results"])%list)).
  { unfold analyze_multiple_repositories. cbn [bind Monad_py].
    destruct (analyze_loop_ok W urls [] []) as (log & ->).
    { intros u Hu. exists PNone. split; [now apply Hall | discriminate]. }
    assert (Hrows : filter (yields_row W) urls = []).
    { clear log. induction urls as [| u urls IH]; [reflexivity |].
      cbn [filter]. rewrite (yields_row_eq _ _ (Hall u (or_introl eq_refl))).
      cbn. apply IH. intros u' Hu'. apply Hall. now right. }
    rewrite Hrows. cbn. now exists log. }
  destruct Hrun as (printed & ->). now exists printed.
Qed.

Lemma batch_cell_fails_without_rows_witness :
  exists printed,
    run (batch_cell sample_world
           (mkFrontend (fun _ => Ok sample_table) (fun _ => Ok tt)) [])
    = (Raise (mkExn AttributeError "'NoneType' object has no attribute 'to_html'"),
       (printed ++ ["No valid analysis results"])%list).
Proof.
  apply (@batch_cell_fails_without_rows sample_world
           (mkFrontend (fun _ => Ok sample_table) (fun _ => Ok tt)) []).
  intros u [].
Defined.

(** ** What a batch run prints *)

Lemma analyze_loop_printed W urls :
  forall results out,
    (forall u, In u urls ->
               exists v, analysis_of W u = Ok v /\
                         (truthy v = true -> isinstance_dict v = true)) ->
    snd (analyze_loop W urls results out)
    = (out ++ flat_map (fun u => banner u :: analysis_log W u) urls)%list.
Proof.
  induction urls as [| url rest IH]; intros results out Hall.
  - cbn. now rewrite app_nil_r.
  - rewrite analyze_loop_cons. cbn zeta. cbn [flat_map].
    destruct (Hall url (or_introl eq_refl)) as (v & Ev & Hv). rewrite Ev.
    assert (Hrest : forall u, In u rest ->
               exists v, analysis_of W u = Ok v /\
                         (truthy v = true -> isinstance_dict v = true))
      by (intros u Hu; apply Hall; now right).
    destruct (truthy v) eqn:Ht.
    + specialize (Hv eq_refl). destruct v; try discriminate Hv.
      rewrite (IH _ _ Hrest). now rewrite <- app_assoc.
    + rewrite (IH _ _ Hrest). now rewrite <- app_assoc.
Qed.

(** X23: a batch run in which every analysis returns and the file can be
    written prints, for each URL in input order and whether or not it
    failed, its banner followed by the lines of its analysis, and then
    one closing line: the count of saved rows, or
    [No valid analysis results]. *)
Theorem batch_progress_lines (W : World) (urls : list string) :
  (forall u, In u urls ->
             exists v, analysis_of W u = Ok v /\
                       (truthy v = true -> isinstance_dict v = true)) ->
  (forall df, to_csv W df comparison_csv true = Ok tt) ->
  snd (run (analyze_multiple_repositories W urls))
  = (flat_map (fun u => banner u :: analysis_log W u) urls
       ++ [match filter (yields_row W) urls with
           | [] => "No valid analysis results"
           | rows => saved_line (length rows)
           end])%list.
Proof.
  intros Hall Hcsv. unfold run, analyze_multiple_repositories.
  cbn [bind Monad_py].
  pose proof (analyze_loop_printed W urls [] [] Hall) as Hlog.
  destruct (analyze_loop_ok W urls [] [] Hall) as (log & E).
  rewrite E in Hlog. cbn [snd app] in Hlog. subst log. rewrite E.
  cbn [app]. fold (batch_records W urls).
  assert (Hnamed : Forall named (batch_records W urls)).
  { apply batch_records_named. intros u Hu. apply filter_In in Hu.
    destruct Hu as [Hu Hy]. destruct (Hall u Hu) as (v & Ev & Hv).
    rewrite (yields_row_eq _ _ Ev) in Hy. specialize (Hv Hy).
    destruct v as [| | | | | | d]; try discriminate Hv.
    exists d. split; [assumption |]. now destruct d. }
  unfold batch_records in *.
  destruct (filter (yields_row W) urls) as [| u0 us] eqn:Er.
  - reflexivity.
  - cbn [map] in *. unfold lift.
    rewrite set_index_records; [| discriminate | assumption].
    rewrite Hcsv. cbn. now rewrite length_map.
Qed.

Lemma batch_progress_lines_witness :
  snd (run (analyze_multiple_repositories sample_world sample_urls))
  = [ banner sample_url_A; start_line sample_url_A; fetch_line;
      completion_line; complete_line;
      banner sample_url_B; start_line sample_url_B; fetch_line;
      fetch_error_line (mkExn (OtherException "FetchError") "404 Not Found");
      banner sample_url_C; start_line sample_url_C; fetch_line;
      completion_line; complete_line;
      saved_line 2 ].
Proof.
  rewrite (@batch_progress_lines sample_world sample_urls).
  - vm_compute. reflexivity.
  - intros u [<- | [<- | [<- | []]]]; eexists; (split; [vm_compute; reflexivity |]);
      intros H; first [reflexivity | discriminate H].
  - reflexivity.
Defined.
